(** * Aws-signed-url: the upload-URL handler of [main.go]

    A shallow embedding of [GetUploadURLHandler], [GeneratePresignedURL],
    [SendResponse], [Error] and [Success], together with models of the
    library calls they make (encoding/json decoding, time formatting,
    fmt verbs, the process environment and the AWS SDK), and the
    properties of the handler stated over them. *)

From Stdlib Require Import ZArith Lia Ascii String List Bool DecimalString.
From Stdlib Require DecimalPos DecimalN.
From stdpp Require Import base option list strings gmap.

Local Open Scope Z_scope.
#[local] Set Warnings "-register-all".

(** * The embedding *)

(** ** Bytes and strings

    A Go [string] and a request body are byte sequences; both are [string]
    here, one [ascii] per byte. *)

Definition byte_of (n : Z) : ascii := ascii_of_N (Z.to_N n).
Definition code (c : ascii) : Z := Z.of_N (N_of_ascii c).

Definition dquote : ascii := byte_of 34.
Definition squote : ascii := byte_of 39.
Definition bslash : ascii := byte_of 92.

Fixpoint repeat_byte (n : nat) (c : ascii) : string :=
  match n with
  | O => EmptyString
  | S k => String c (repeat_byte k c)
  end.


(** ** strconv and fmt *)

Module strconv.

(** Decimal digits of a non-negative number, most significant first. *)
Definition utoa (u : Z) : string := NilZero.string_of_uint (N.to_uint (Z.to_N u)).

(** [strconv.FormatInt(i, 10)]. *)
Definition Itoa (i : Z) : string :=
  if i <? 0 then String "-" (utoa (- i)) else utoa i.

Definition hexdigit (d : Z) : ascii :=
  if d <? 10 then byte_of (48 + d) else byte_of (87 + d).

End strconv.

Module fmt.

(** The operands the program passes to [Sprintf]: strings, and integers
    of kind int64 (an [int64], or a [time.Duration], whose [String]
    method the verb [%d] does not consult). *)
Inductive operand :=
| str (s : string)
| int (x : Z).

(** One verb applied to one operand; a verb that does not fit the operand
    prints the operand with its type. *)
Definition verb (v : ascii) (a : operand) : string :=
  match a with
  | str s =>
      if Ascii.eqb v "s" || Ascii.eqb v "v" then s
      else "%!" +:+ String v ("(string=" +:+ s +:+ ")")
  | int x =>
      if Ascii.eqb v "d" || Ascii.eqb v "v" then strconv.Itoa x
      else "%!" +:+ String v ("(int64=" +:+ strconv.Itoa x +:+ ")")
  end.

(** [fmt.Sprintf(format, operands...)] for formats made of text and of
    the verbs [%s], [%d], [%v] and [%%], without flags. *)
Fixpoint Sprintf (format : string) (operands : list operand) {struct format} : string :=
  match format with
  | EmptyString => EmptyString
  | String c rest =>
      if Ascii.eqb c "%" then
        match rest with
        | EmptyString => "%!(NOVERB)"
        | String v rest' =>
            if Ascii.eqb v "%" then String "%" (Sprintf rest' operands)
            else
              match operands with
              | [] => "%!" +:+ String v ("(MISSING)" +:+ Sprintf rest' [])
              | a :: operands' => verb v a +:+ Sprintf rest' operands'
              end
        end
      else String c (Sprintf rest operands)
  end.

(** [fmt.Errorf(format)] for a format without verbs. *)
Definition Errorf_text (format : string) : string := Sprintf format [].

End fmt.

(** ** time *)

Module time.

(** [time.Duration]: a count of nanoseconds. *)
Definition Duration := Z.
Definition Nanosecond : Duration := 1.
Definition Second : Duration := 1000000000 * Nanosecond.
Definition Minute : Duration := 60 * Second.

(** A [*time.Location], seen through its [lookup]: the offset east of UTC,
    in seconds, in force at a Unix time given in seconds. *)
Definition Location := Z -> Z.

(** A [time.Time]: seconds since the Unix epoch, nanoseconds within the
    second, and the location used to present it.  The monotonic clock
    reading plays no part in what the program computes. *)
Record Time := mkTime { sec : Z; nsec : Z; loc : Location }.

(** The instant of the wall clock at [ns] nanoseconds after the epoch. *)
Definition at_nanos (ns : Z) (l : Location) : Time :=
  {| sec := ns / 1000000000; nsec := ns mod 1000000000; loc := l |}.

Definition UnixNano (t : Time) : Z := sec t * 1000000000 + nsec t.

(** [t.Add(d)].  Go's [/] and [%] truncate toward zero. *)
Definition Add (t : Time) (d : Duration) : Time :=
  let dsec := Z.quot d 1000000000 in
  let ns := nsec t + Z.rem d 1000000000 in
  if 1000000000 <=? ns then
    {| sec := sec t + (dsec + 1); nsec := ns - 1000000000; loc := loc t |}
  else if ns <? 0 then
    {| sec := sec t + (dsec - 1); nsec := ns + 1000000000; loc := loc t |}
  else
    {| sec := sec t + dsec; nsec := ns; loc := loc t |}.

(** Seconds on the local wall clock: [t.locabs], counted from the
    Unix epoch. *)
Definition localSec (t : Time) : Z := sec t + loc t (sec t).

(** Proleptic Gregorian date of the day [days] after 1970-01-01. *)
Definition civil (days : Z) : Z * Z * Z :=
  let z := days + 719468 in
  let era := z / 146097 in
  let doe := z - era * 146097 in
  let yoe := (doe - doe / 1460 + doe / 36524 - doe / 146096) / 365 in
  let doy := doe - (365 * yoe + yoe / 4 - yoe / 100) in
  let mp := (5 * doy + 2) / 153 in
  let d := doy - (153 * mp + 2) / 5 + 1 in
  let m := if mp <? 10 then mp + 3 else mp - 9 in
  let y := yoe + era * 400 + (if m <=? 2 then 1 else 0) in
  (y, m, d).

Definition Year (t : Time) : Z := fst (fst (civil (localSec t / 86400))).
Definition Month (t : Time) : Z := snd (fst (civil (localSec t / 86400))).
Definition Day (t : Time) : Z := snd (civil (localSec t / 86400)).
Definition Hour (t : Time) : Z := (localSec t mod 86400) / 3600.
Definition Minute_of (t : Time) : Z := (localSec t mod 3600) / 60.
Definition Second_of (t : Time) : Z := localSec t mod 60.

(** [appendInt]: decimal with a sign and zero padding to [width] digits. *)
Definition appendInt (x : Z) (width : nat) : string :=
  let u := Z.abs x in
  let digits := strconv.utoa u in
  (if x <? 0 then "-" else "") +:+
  repeat_byte (width - String.length digits) "0" +:+ digits.

(** The pieces of a layout that [nextStdChunk] recognises in the layouts
    this program uses; any other byte stands for itself. *)
Inductive chunk :=
| stdLongYear       (* "2006" *)
| stdZeroMonth      (* "01" *)
| stdZeroDay        (* "02" *)
| stdHour           (* "15" *)
| stdZeroMinute     (* "04" *)
| stdZeroSecond     (* "05" *)
| literal (c : ascii).

Definition std_at (s : string) : option (chunk * nat) :=
  match s with
  | String "2" (String "0" (String "0" (String "6" _))) => Some (stdLongYear, 4%nat)
  | String "0" (String "1" _) => Some (stdZeroMonth, 2%nat)
  | String "0" (String "2" _) => Some (stdZeroDay, 2%nat)
  | String "1" (String "5" _) => Some (stdHour, 2%nat)
  | String "0" (String "4" _) => Some (stdZeroMinute, 2%nat)
  | String "0" (String "5" _) => Some (stdZeroSecond, 2%nat)
  | _ => None
  end.

Fixpoint chunks (skip : nat) (layout : string) : list chunk :=
  match layout with
  | EmptyString => []
  | String c rest =>
      match skip with
      | S k => chunks k rest
      | O =>
          match std_at layout with
          | Some (ch, n) => ch :: chunks (n - 1) rest
          | None => literal c :: chunks 0 rest
          end
      end
  end.

Definition appendChunk (t : Time) (ch : chunk) : string :=
  match ch with
  | stdLongYear => appendInt (Year t) 4
  | stdZeroMonth => appendInt (Month t) 2
  | stdZeroDay => appendInt (Day t) 2
  | stdHour => appendInt (Hour t) 2
  | stdZeroMinute => appendInt (Minute_of t) 2
  | stdZeroSecond => appendInt (Second_of t) 2
  | literal c => String c EmptyString
  end.

(** [t.Format(layout)]. *)
Definition Format (t : Time) (layout : string) : string :=
  fold_right (fun ch acc => appendChunk t ch +:+ acc) "" (chunks 0 layout).

End time.

(** [time.UTC]. *)
Definition utc : time.Location := fun _ => 0.

(** ** Go errors

    An [error] value is known to the program through its [Error()] method
    only.  The dynamic types that reach the handler are listed here. *)

Inductive error :=
| errorString (s : string)
    (* errors.New / fmt.Errorf without verbs; io.EOF, io.ErrUnexpectedEOF *)
| SyntaxError (c : ascii) (context : string)
    (* json.SyntaxError raised by the scanner at the byte [c] *)
| UnmarshalTypeError (Value GoType Struct Field : string)
    (* json.UnmarshalTypeError *)
| sdkError (message : string).
    (* an error returned by the AWS SDK *)

Module utf8.

(** [utf8.EncodeRune], for a rune that is not a surrogate. *)
Definition EncodeRune (r : Z) : string :=
  if r <? 128 then String (byte_of r) ""
  else if r <? 2048 then
    String (byte_of (192 + r / 64)) (String (byte_of (128 + r mod 64)) "")
  else if r <? 65536 then
    String (byte_of (224 + r / 4096))
      (String (byte_of (128 + (r / 64) mod 64))
         (String (byte_of (128 + r mod 64)) ""))
  else
    String (byte_of (240 + r / 262144))
      (String (byte_of (128 + (r / 4096) mod 64))
         (String (byte_of (128 + (r / 64) mod 64))
            (String (byte_of (128 + r mod 64)) ""))).

End utf8.

Module json.

(** [quoteChar]: the offending byte as it appears in a syntax error.
    [strconv.Quote] is applied to the one-rune string of the byte. *)
Definition quoteChar (c : ascii) : string :=
  let n := code c in
  let hex2 := String (strconv.hexdigit (n / 16)) (String (strconv.hexdigit (n mod 16)) "") in
  if n =? 39 then "'\''"
  else if n =? 34 then String squote (String dquote (String squote ""))
  else
    "'" +:+
    (if n =? 92 then "\\"
     else if n =? 7 then "\a"
     else if n =? 8 then "\b"
     else if n =? 12 then "\f"
     else if n =? 10 then "\n"
     else if n =? 13 then "\r"
     else if n =? 9 then "\t"
     else if n =? 11 then "\v"
     else if (n <? 32) || (n =? 127) then "\x" +:+ hex2
     else if n <? 127 then String c ""
     else if (n <? 161) || (n =? 173) then "\u00" +:+ hex2
     else utf8.EncodeRune n)
    +:+ "'".

(** The [Error] methods of [SyntaxError], [UnmarshalTypeError] and the
    other error types. *)
Definition Error_method (e : error) : string :=
  match e with
  | errorString s => s
  | SyntaxError c context => "invalid character " +:+ quoteChar c +:+ " " +:+ context
  | UnmarshalTypeError v t s f =>
      if negb (String.eqb s "") || negb (String.eqb f "") then
        "json: cannot unmarshal " +:+ v +:+ " into Go struct field " +:+ s +:+ "." +:+ f
          +:+ " of type " +:+ t
      else
        "json: cannot unmarshal " +:+ v +:+ " into Go value of type " +:+ t
  | sdkError m => m
  end.

(** *** JSON values *)

Inductive value :=
| Null
| Bool (b : bool)
| Number (lit : string)            (* the literal as written *)
| Str (s : string)                 (* unquoted *)
| Array (vs : list value)
| Object (ms : list (string * value)).   (* members in input order *)

(** *** The scanner

    [scanned A] is what reading one syntactic item gives: the item and
    the unread input, a syntax error at a byte, or the end of the input
    before the item was complete. *)

Inductive scanned (A : Type) :=
| Ok (a : A) (rest : string)
| Invalid (c : ascii) (context : string)
| EndOfInput
| OutOfFuel.
Arguments Ok {A} a rest.
Arguments Invalid {A} c context.
Arguments EndOfInput {A}.
Arguments OutOfFuel {A}.

Definition eqc (c : ascii) (k : ascii) : bool := Ascii.eqb c k.

Definition isSpace (c : ascii) : bool :=
  eqc c " " || eqc c (byte_of 9) || eqc c (byte_of 13) || eqc c (byte_of 10).

Definition isDigit (c : ascii) : bool := (48 <=? code c) && (code c <=? 57).
Definition isDigit19 (c : ascii) : bool := (49 <=? code c) && (code c <=? 57).
Definition isHex (c : ascii) : bool :=
  isDigit c || ((97 <=? code c) && (code c <=? 102)) || ((65 <=? code c) && (code c <=? 70)).

Fixpoint skipSpace (s : string) : string :=
  match s with
  | String c rest => if isSpace c then skipSpace rest else s
  | EmptyString => s
  end.

(** [nonSpace]: some byte of the buffer is not white space. *)
Fixpoint nonSpace (s : string) : bool :=
  match s with
  | String c rest => negb (isSpace c) || nonSpace rest
  | EmptyString => false
  end.

(** The rest of a literal [true], [false] or [null] whose first byte
    has been read: [expect] lists the bytes still to come. *)
Fixpoint scan_word (name : string) (expect : string) (s : string) : scanned unit :=
  match expect with
  | EmptyString => Ok tt s
  | String e expect' =>
      match s with
      | EmptyString => EndOfInput
      | String c rest =>
          if eqc c e then scan_word name expect' rest
          else Invalid c ("in literal " +:+ name +:+ " (expecting '" +:+ String e "')")
      end
  end.

(** States of the scanner inside a string literal. *)
Inductive strstate := InString | InStringEsc | InStringEscU (seen : nat).

(** The bytes of a string literal after its opening quote, up to the
    closing quote: gives the raw bytes between the quotes. *)
Fixpoint scan_string (st : strstate) (s : string) : scanned string :=
  match s with
  | EmptyString => EndOfInput
  | String c rest =>
      let keep st' :=
        match scan_string st' rest with
        | Ok raw rest' => Ok (String c raw) rest'
        | other => other
        end in
      match st with
      | InString =>
          if eqc c dquote then Ok "" rest
          else if eqc c bslash then keep InStringEsc
          else if code c <? 32 then Invalid c "in string literal"
          else keep InString
      | InStringEsc =>
          if eqc c "b" || eqc c "f" || eqc c "n" || eqc c "r" || eqc c "t"
             || eqc c bslash || eqc c "/" || eqc c dquote then keep InString
          else if eqc c "u" then keep (InStringEscU 0)
          else Invalid c "in string escape code"
      | InStringEscU seen =>
          if isHex c then keep (if (seen <? 3)%nat then InStringEscU (S seen) else InString)
          else Invalid c "in \u hexadecimal character escape"
      end
  end.

(** States of the scanner inside a number. *)
Inductive numstate := stateNeg | state0 | state1 | stateDot | stateDot0
                    | stateE | stateESign | stateE0.

(** The bytes of a number after its first byte: gives the bytes that
    belong to the literal.  The literal ends before the first byte that
    cannot continue it, or with the input. *)
Fixpoint scan_number (st : numstate) (s : string) : scanned string :=
  match s with
  | EmptyString =>
      match st with
      | state0 | state1 | stateDot0 | stateE0 => Ok "" s
      | _ => EndOfInput
      end
  | String c rest =>
      let keep st' :=
        match scan_number st' rest with
        | Ok lit rest' => Ok (String c lit) rest'
        | other => other
        end in
      let after0 :=
        if eqc c "." then keep stateDot
        else if eqc c "e" || eqc c "E" then keep stateE
        else Ok "" s in
      let esign :=
        if isDigit c then keep stateE0
        else Invalid c "in exponent of numeric literal" in
      match st with
      | stateNeg =>
          if eqc c "0" then keep state0
          else if isDigit19 c then keep state1
          else Invalid c "in numeric literal"
      | state1 => if isDigit c then keep state1 else after0
      | state0 => after0
      | stateDot =>
          if isDigit c then keep stateDot0
          else Invalid c "after decimal point in numeric literal"
      | stateDot0 =>
          if isDigit c then keep stateDot0
          else if eqc c "e" || eqc c "E" then keep stateE
          else Ok "" s
      | stateE => if eqc c "+" || eqc c "-" then keep stateESign else esign
      | stateESign => esign
      | stateE0 => if isDigit c then keep stateE0 else Ok "" s
      end
  end.

(** *** Unquoting

    [unquote] turns the raw bytes of a string literal into the string it
    denotes.  Bytes outside ASCII are copied as they are (where the
    input is not well-formed UTF-8 Go writes U+FFFD instead; either way
    the result has a byte outside ASCII there). *)

Definition hexval (c : ascii) : Z :=
  let n := code c in
  if n <=? 57 then n - 48 else if n <=? 70 then n - 55 else n - 87.

Definition getu4 (a b c d : ascii) : Z :=
  ((hexval a * 16 + hexval b) * 16 + hexval c) * 16 + hexval d.

Definition isSurrogate (r : Z) : bool := (55296 <=? r) && (r <? 57344).

(** [utf16.DecodeRune]: the rune of a surrogate pair, U+FFFD if the two
    halves do not form one. *)
Definition DecodeRune (r1 r2 : Z) : Z :=
  if (55296 <=? r1) && (r1 <? 56320) && (56320 <=? r2) && (r2 <? 57344)
  then (r1 - 55296) * 1024 + (r2 - 56320) + 65536
  else 65533.

Definition escaped (e : ascii) : ascii :=
  if eqc e "b" then byte_of 8
  else if eqc e "f" then byte_of 12
  else if eqc e "n" then byte_of 10
  else if eqc e "r" then byte_of 13
  else if eqc e "t" then byte_of 9
  else e.

Fixpoint unquote (s : string) : string :=
  match s with
  | EmptyString => ""
  | String c rest =>
      if eqc c bslash then
        match rest with
        | EmptyString => ""
        | String e rest1 =>
            if eqc e "u" then
              match rest1 with
              | String h1 (String h2 (String h3 (String h4 rest2))) =>
                  let rr := getu4 h1 h2 h3 h4 in
                  if isSurrogate rr then
                    match rest2 with
                    | String b (String u (String g1 (String g2 (String g3 (String g4 rest3))))) =>
                        let dec := DecodeRune rr (getu4 g1 g2 g3 g4) in
                        if eqc b bslash && eqc u "u" && isHex g1 && isHex g2
                           && isHex g3 && isHex g4 && negb (dec =? 65533)
                        then utf8.EncodeRune dec +:+ unquote rest3
                        else utf8.EncodeRune 65533 +:+ unquote rest2
                    | _ => utf8.EncodeRune 65533 +:+ unquote rest2
                    end
                  else utf8.EncodeRune rr +:+ unquote rest2
              | _ => ""
              end
            else String (escaped e) (unquote rest1)
        end
      else String c (unquote rest)
  end.

(** *** Values *)

(** The scanner refuses to open more than this many arrays and objects. *)
Definition maxNestingDepth : Z := 10000.

Definition next {A} (s : string) (k : ascii -> string -> scanned A) : scanned A :=
  match skipSpace s with
  | EmptyString => EndOfInput
  | String c rest => k c rest
  end.

Definition andThen {A B} (r : scanned A) (k : A -> string -> scanned B) : scanned B :=
  match r with
  | Ok a rest => k a rest
  | Invalid c context => Invalid c context
  | EndOfInput => EndOfInput
  | OutOfFuel => OutOfFuel
  end.

(** One JSON value at the head of [s], after white space.  [depth] is the
    number of arrays and objects that are open around it; [fuel] bounds
    the number of values, members and elements read. *)
Fixpoint scan_value (fuel : nat) (depth : Z) (s : string) {struct fuel} : scanned value :=
  match fuel with
  | O => OutOfFuel
  | S f =>
      next s (fun c rest =>
        if eqc c "{" then
          if maxNestingDepth <=? depth then Invalid c "exceeded max depth"
          else next rest (fun c1 rest1 =>
                 if eqc c1 "}" then Ok (Object []) rest1
                 else scan_members f (depth + 1) [] (String c1 rest1))
        else if eqc c "[" then
          if maxNestingDepth <=? depth then Invalid c "exceeded max depth"
          else next rest (fun c1 rest1 =>
                 if eqc c1 "]" then Ok (Array []) rest1
                 else scan_elements f (depth + 1) [] (String c1 rest1))
        else if eqc c dquote then
          andThen (scan_string InString rest) (fun raw rest1 => Ok (Str (unquote raw)) rest1)
        else if eqc c "-" then
          andThen (scan_number stateNeg rest) (fun lit rest1 => Ok (Number (String c lit)) rest1)
        else if eqc c "0" then
          andThen (scan_number state0 rest) (fun lit rest1 => Ok (Number (String c lit)) rest1)
        else if isDigit19 c then
          andThen (scan_number state1 rest) (fun lit rest1 => Ok (Number (String c lit)) rest1)
        else if eqc c "t" then
          andThen (scan_word "true" "rue" rest) (fun _ rest1 => Ok (Bool true) rest1)
        else if eqc c "f" then
          andThen (scan_word "false" "alse" rest) (fun _ rest1 => Ok (Bool false) rest1)
        else if eqc c "n" then
          andThen (scan_word "null" "ull" rest) (fun _ rest1 => Ok Null rest1)
        else Invalid c "looking for beginning of value")
  end

(** The members of an object from the point where a key must begin. *)
with scan_members (fuel : nat) (depth : Z) (acc : list (string * value)) (s : string)
       {struct fuel} : scanned value :=
  match fuel with
  | O => OutOfFuel
  | S f =>
      next s (fun c rest =>
        if eqc c dquote then
          andThen (scan_string InString rest) (fun raw rest1 =>
            next rest1 (fun c2 rest2 =>
              if eqc c2 ":" then
                andThen (scan_value f depth rest2) (fun v rest3 =>
                  next rest3 (fun c4 rest4 =>
                    if eqc c4 "," then scan_members f depth (acc ++ [(unquote raw, v)]) rest4
                    else if eqc c4 "}" then Ok (Object (acc ++ [(unquote raw, v)])) rest4
                    else Invalid c4 "after object key:value pair"))
              else Invalid c2 "after object key"))
        else Invalid c "looking for beginning of object key string")
  end

(** The elements of an array from the point where an element must begin. *)
with scan_elements (fuel : nat) (depth : Z) (acc : list value) (s : string)
       {struct fuel} : scanned value :=
  match fuel with
  | O => OutOfFuel
  | S f =>
      andThen (scan_value f depth s) (fun v rest1 =>
        next rest1 (fun c rest2 =>
          if eqc c "," then scan_elements f depth (acc ++ [v]) rest2
          else if eqc c "]" then Ok (Array (acc ++ [v])) rest2
          else Invalid c "after array element"))
  end.

Definition io_EOF : error := errorString "EOF".
Definition io_ErrUnexpectedEOF : error := errorString "unexpected EOF".

(** [Decoder.readValue] on a decoder that has read nothing yet: the
    first JSON value of the body; bytes after it are left unread.  The
    fuel given to the scanner is never used up ([readValue_fuel]). *)
Definition readValue (body : string) : error + value :=
  match scan_value (2 * String.length body + 2) 0 body with
  | Ok v _ => inr v
  | Invalid c context => inl (SyntaxError c context)
  | EndOfInput | OutOfFuel =>
      inl (if nonSpace body then io_ErrUnexpectedEOF else io_EOF)
  end.

(** *** Decoding into a struct with one int64 field

    What [Unmarshal] does by reflection on the target is written out
    for a target [struct { F int64 `json:"name"` }]: [structType] is the
    type as [reflect.Type.String] prints it, [structName] its name and
    [fieldName] the name in the field's tag. *)

Section Struct.
Variables structType structName fieldName : string.

Definition minInt64 : Z := -9223372036854775808.
Definition maxInt64 : Z := 9223372036854775807.

Fixpoint digits_value (acc : Z) (s : string) : option Z :=
  match s with
  | EmptyString => Some acc
  | String c rest =>
      if isDigit c then digits_value (acc * 10 + (code c - 48)) rest else None
  end.

(** [strconv.ParseInt(lit, 10, 64)] on a JSON number literal. *)
Definition ParseInt64 (lit : string) : option Z :=
  let parsed :=
    match lit with
    | EmptyString => None
    | String c rest =>
        if eqc c "-" then
          match rest with
          | EmptyString => None
          | _ => Z.opp <$> digits_value 0 rest
          end
        else digits_value 0 lit
    end in
  match parsed with
  | Some n => if (minInt64 <=? n) && (n <=? maxInt64) then Some n else None
  | None => None
  end.

Definition upper (c : ascii) : ascii :=
  if (97 <=? code c) && (code c <=? 122) then byte_of (code c - 32) else c.

Fixpoint foldName (s : string) : string :=
  match s with
  | EmptyString => EmptyString
  | String c rest => String (upper c) (foldName rest)
  end.

(** The key of a member selects the field when it is its name, exactly
    or up to the case of ASCII letters. *)
Definition field_matches (key : string) : bool :=
  String.eqb key fieldName || String.eqb (foldName key) (foldName fieldName).

(** A value stored into the int64 field holding [cur]: the new
    content of the field and the error saved, if any. *)
Definition store_int64 (v : value) (cur : Z) : Z * option error :=
  let mismatch what := (cur, Some (UnmarshalTypeError what "int64" structName fieldName)) in
  match v with
  | Null => (cur, None)
  | Bool _ => mismatch "bool"
  | Str _ => mismatch "string"
  | Number lit =>
      match ParseInt64 lit with
      | Some n => (n, None)
      | None => mismatch ("number " +:+ lit)
      end
  | Array _ => mismatch "array"
  | Object _ => mismatch "object"
  end.

(** The members of an object in input order; members whose key
    selects no field are skipped, and the first error is the one kept. *)
Fixpoint object (ms : list (string * value)) (cur : Z) (saved : option error)
  : Z * option error :=
  match ms with
  | [] => (cur, saved)
  | (key, v) :: ms' =>
      if field_matches key then
        let '(cur', e) := store_int64 v cur in
        object ms' cur' (match saved with Some _ => saved | None => e end)
      else object ms' cur saved
  end.

Definition unmarshal (v : value) (cur : Z) : Z * option error :=
  let mismatch what := (cur, Some (UnmarshalTypeError what structType "" "")) in
  match v with
  | Object ms => object ms cur None
  | Null => (cur, None)
  | Array _ => mismatch "array"
  | Bool _ => mismatch "bool"
  | Str _ => mismatch "string"
  | Number _ => mismatch "number"
  end.

(** [json.NewDecoder(body).Decode(&v)], [cur] being the field of [v]. *)
Definition Decode (body : string) (cur : Z) : Z * option error :=
  match readValue body with
  | inl err => (cur, Some err)
  | inr v => unmarshal v cur
  end.

End Struct.

End json.

(** ** The AWS SDK *)

Module aws.
Record Config := { Region : string }.
(** A [*session.Session]; [handle] stands for what the SDK resolved. *)
Record Session := { config : Config; handle : nat }.
End aws.

Module s3.
Record PutObjectInput := {
  Bucket : string;
  Key : string;
  ContentType : string;
  ContentLength : Z
}.
End s3.

(** ** The world of a request

    [Env] is what the handler can observe and does not change: the process
    environment (as left by [godotenv.Load] at start-up), the wall clock,
    the local time zone and the behaviour of the SDK.  [State] is what a
    request changes: how many times the clock was read and which SDK calls
    were made. *)

Inductive Call :=
| CallNewSession (cfg : aws.Config)
| CallPresign (sess : aws.Session) (input : s3.PutObjectInput) (expire : time.Duration).

Record Env := {
  environ : gmap string string;
  wallclock : nat -> Z;
      (* the n-th reading of the clock, in nanoseconds since the epoch *)
  time_Local : time.Location;
      (* time.Local, the zone of the process *)
  sdk_NewSession : aws.Config -> error + aws.Session;
  sdk_Presign : aws.Session -> s3.PutObjectInput -> time.Duration -> error + string
      (* svc.PutObjectRequest(input) followed by req.Presign(expire) *)
}.

Record State := { reads : nat; calls : list Call }.

(** Computations that read the environment and change the state. *)
Definition M (A : Type) : Type := Env -> State -> A * State.

Definition ret {A} (a : A) : M A := fun _ st => (a, st).
Definition bind {A B} (m : M A) (k : A -> M B) : M B :=
  fun env st => let '(a, st') := m env st in k a env st'.

Notation "x <- m ;; k" := (bind m (fun x => k))
  (at level 20, m at level 99, k at level 200, only parsing).
Notation "' pat <- m ;; k" := (bind m (fun x => match x with pat => k end))
  (at level 20, pat pattern, m at level 99, k at level 200, only parsing).

(** [time.Now()]. *)
Definition time_Now : M time.Time :=
  fun env st =>
    (time.at_nanos (wallclock env (reads st)) (time_Local env),
     {| reads := S (reads st); calls := calls st |}).

(** [os.Getenv(key)]: the empty string when the variable is not set. *)
Definition os_Getenv (key : string) : M string :=
  fun env st => (default "" (environ env !! key), st).

(** [session.NewSession(cfg)]. *)
Definition session_NewSession (cfg : aws.Config) : M (error + aws.Session) :=
  fun env st =>
    (sdk_NewSession env cfg,
     {| reads := reads st; calls := calls st ++ [CallNewSession cfg] |}).

(** [s3.New(sess).PutObjectRequest(input)] and [req.Presign(expire)]. *)
Definition s3_Presign (sess : aws.Session) (input : s3.PutObjectInput)
    (expire : time.Duration) : M (error + string) :=
  fun env st =>
    (sdk_Presign env sess input expire,
     {| reads := reads st; calls := calls st ++ [CallPresign sess input expire] |}).

(** ** net/http *)

Module http.

Definition StatusOK : Z := 200.
Definition StatusBadRequest : Z := 400.
Definition StatusInternalServerError : Z := 500.

(** The part of a [*http.Request] the handler reads. *)
Record Request := { Body : string }.

(** A [http.ResponseWriter] that records what is done to it: the header
    map, the status of the first [WriteHeader] and, in order, the values
    handed to a [json.Encoder] writing to it. *)
Record ResponseWriter (payload : Type) := {
  Header : gmap string string;
  Status : option Z;
  Encoded : list payload
}.
Arguments Header {payload} _.
Arguments Status {payload} _.
Arguments Encoded {payload} _.

Definition fresh {payload} : ResponseWriter payload :=
  {| Header := ∅; Status := None; Encoded := [] |}.

End http.

(** ** main.go *)

(** The structs of main.go (lines 34-46 and 95-101), one module each. *)

Module GeneratePresignedURLBody.
Record t := { ContentLength : Z }.
End GeneratePresignedURLBody.

Module GeneratePresignedURLResponse.
Record t := {
  Method : string;
  PreAssignedURL : string;
  ExpirationTime : time.Time;
  FileName : string;
  Host : string;
  Details : list string;
  ObjectUrl : string
}.
End GeneratePresignedURLResponse.

Module GeneratePresignedURLParam.
Record t := {
  FileName : string;
  Timout : time.Duration;
  ContentLength : Z;
  Bucket : string;
  ContentType : string
}.
End GeneratePresignedURLParam.

(** The zero value [time.Time{}]: January 1, year 1, 00:00:00 UTC. *)
Definition zeroTime : time.Time :=
  {| time.sec := -62135596800; time.nsec := 0; time.loc := utc |}.

(** [var res GeneratePresignedURLResponse]. *)
Definition zeroResponse : GeneratePresignedURLResponse.t :=
  {| GeneratePresignedURLResponse.Method := "";
     GeneratePresignedURLResponse.PreAssignedURL := "";
     GeneratePresignedURLResponse.ExpirationTime := zeroTime;
     GeneratePresignedURLResponse.FileName := "";
     GeneratePresignedURLResponse.Host := "";
     GeneratePresignedURLResponse.Details := [];
     GeneratePresignedURLResponse.ObjectUrl := "" |}.

(** The values the program stores in a [map[string]interface{}]. *)
Inductive any :=
| anyBool (b : bool)
| anyString (s : string)
| anyResponse (d : GeneratePresignedURLResponse.t).

(** [json.NewDecoder(r.Body).Decode(&body)]. *)
Definition Decode (r_Body : string) (body : GeneratePresignedURLBody.t)
  : GeneratePresignedURLBody.t * option error :=
  let '(n, err) :=
    json.Decode "main.GeneratePresignedURLBody" "GeneratePresignedURLBody" "content_length"
      r_Body (GeneratePresignedURLBody.ContentLength body) in
  ({| GeneratePresignedURLBody.ContentLength := n |}, err).

(** [fmt.Errorf(format)] for a format without verbs. *)
Definition fmt_Errorf (format : string) : error := errorString (fmt.Errorf_text format).

(** [func GeneratePresignedURL] (main.go, lines 103-148): the response and
    the error it returns. *)
Definition GeneratePresignedURL (param : GeneratePresignedURLParam.t)
  : M (GeneratePresignedURLResponse.t * option error) :=
  let res := zeroResponse in
  region <- os_Getenv "AWS_REGION" ;;
  created <- session_NewSession {| aws.Region := region |} ;;
  match created with
  | inl _ => ret (res, Some (fmt_Errorf "failed to create AWS session"))
  | inr sess =>
      signed <- s3_Presign sess
                  {| s3.Bucket := GeneratePresignedURLParam.Bucket param;
                     s3.Key := GeneratePresignedURLParam.FileName param;
                     s3.ContentType := GeneratePresignedURLParam.ContentType param;
                     s3.ContentLength := GeneratePresignedURLParam.ContentLength param |}
                  (GeneratePresignedURLParam.Timout param) ;;
      match signed with
      | inl _ => ret (res, Some (fmt_Errorf "failed to sign request"))
      | inr urlStr =>
          now <- time_Now ;;
          let host := fmt.Sprintf "%s.s3.amazonaws.com"
                        [fmt.str (GeneratePresignedURLParam.Bucket param)] in
          ret ({| GeneratePresignedURLResponse.Method := "PUT";
                  GeneratePresignedURLResponse.PreAssignedURL := urlStr;
                  GeneratePresignedURLResponse.ExpirationTime :=
                    time.Add now (GeneratePresignedURLParam.Timout param);
                  GeneratePresignedURLResponse.FileName :=
                    GeneratePresignedURLParam.FileName param;
                  GeneratePresignedURLResponse.Host := host;
                  GeneratePresignedURLResponse.Details :=
                    [ "Use the pre-signed URL to upload the file";
                      fmt.Sprintf "The URL will expire after %d minutes"
                        [fmt.int (GeneratePresignedURLParam.Timout param)];
                      fmt.Sprintf "The maximum upload size is %d bytes"
                        [fmt.int (GeneratePresignedURLParam.ContentLength param)] ];
                  GeneratePresignedURLResponse.ObjectUrl :=
                    fmt.Sprintf "https://%s/%s"
                      [fmt.str host;
                       fmt.str (GeneratePresignedURLParam.FileName param)] |},
               None)
      end
  end.

(** [func SendResponse] (lines 152-156). *)
Definition SendResponse (w : http.ResponseWriter (gmap string any))
    (response : gmap string any) (status : Z) : http.ResponseWriter (gmap string any) :=
  {| http.Header := <["Content-Type" := "application/json"]> (http.Header w);
     http.Status := match http.Status w with Some s => Some s | None => Some status end;
     http.Encoded := http.Encoded w ++ [response] |}.

(** [func Error] (lines 158-167); a nil [err] is [None]. *)
Definition Error (message : string) (err : option error) : gmap string any :=
  let res : gmap string any :=
    {[ "success" := anyBool false; "message" := anyString message ]} in
  match err with
  | Some err => <["error" := anyString (json.Error_method err)]> res
  | None => res
  end.

(** [func Success] (lines 169-175). *)
Definition Success (message : string) (data : any) : gmap string any :=
  {[ "success" := anyBool true; "message" := anyString message; "data" := data ]}.

(** [const MAX_UPLOAD_SIZE int64] (line 56). *)
Definition MAX_UPLOAD_SIZE : Z := 1 * 1024 * 1024.

(** [func GetUploadURLHandler] (lines 48-91): the writer as the handler
    leaves it. *)
Definition GetUploadURLHandler (w : http.ResponseWriter (gmap string any))
    (r : http.Request) : M (http.ResponseWriter (gmap string any)) :=
  let '(body, err) :=
    Decode (http.Body r) {| GeneratePresignedURLBody.ContentLength := 0 |} in
  match err with
  | Some err =>
      ret (SendResponse w (Error "invalid request body" (Some err)) http.StatusBadRequest)
  | None =>
      if (GeneratePresignedURLBody.ContentLength body <=? 0)
         || (GeneratePresignedURLBody.ContentLength body >? MAX_UPLOAD_SIZE)
      then
        ret (SendResponse w (Error "invalid content length" None) http.StatusBadRequest)
      else
        (* r.Body.Close(): the body has been decoded; closing it changes
           nothing the handler or its response depends on *)
        now <- time_Now ;;
        let fileName := fmt.Sprintf "%s.png" [fmt.str (time.Format now "2006-01-02-15-04-05")] in
        let uploadTimeout := 10 * time.Minute in
        bucketName <- os_Getenv "AWS_BUCKET" ;;
        ' (PreAssignedURL, err) <-
          GeneratePresignedURL
            {| GeneratePresignedURLParam.FileName := fileName;
               GeneratePresignedURLParam.Timout := uploadTimeout;
               GeneratePresignedURLParam.ContentLength :=
                 GeneratePresignedURLBody.ContentLength body;
               GeneratePresignedURLParam.Bucket := bucketName;
               GeneratePresignedURLParam.ContentType := "image/png" |} ;;
        match err with
        | Some err =>
            ret (SendResponse w (Error "failed to create AWS session" (Some err))
                   http.StatusInternalServerError)
        | None =>
            ret (SendResponse w
                   (Success "pre-signed URL generated"
                      (anyResponse
                         {| GeneratePresignedURLResponse.Method :=
                              GeneratePresignedURLResponse.Method PreAssignedURL;
                            GeneratePresignedURLResponse.PreAssignedURL :=
                              GeneratePresignedURLResponse.PreAssignedURL PreAssignedURL;
                            GeneratePresignedURLResponse.ExpirationTime :=
                              GeneratePresignedURLResponse.ExpirationTime PreAssignedURL;
                            GeneratePresignedURLResponse.FileName :=
                              GeneratePresignedURLResponse.FileName PreAssignedURL;
                            GeneratePresignedURLResponse.Host :=
                              GeneratePresignedURLResponse.Host PreAssignedURL;
                            GeneratePresignedURLResponse.Details :=
                              GeneratePresignedURLResponse.Details PreAssignedURL;
                            GeneratePresignedURLResponse.ObjectUrl :=
                              GeneratePresignedURLResponse.ObjectUrl PreAssignedURL |}))
                   http.StatusOK)
        end
  end.

(** ** chi and [func main] *)

Module chi.

(** What the router reads of a request, and the request itself. *)
Record Incoming := { Method : string; Path : string; Request : http.Request }.

(** A route registered under a method, for a static pattern (one without
    parameters or wildcards, matched as it is written). *)
Record Route (H : Type) := { method : string; pattern : string; handler : H }.
Arguments method {H} _.
Arguments pattern {H} _.
Arguments handler {H} _.

(** [chi.NewRouter()]. *)
Definition NewRouter {H} : list (Route H) := [].

(** [mx.Post(pattern, h)]. *)
Definition Post {H} (mx : list (Route H)) (pattern : string) (h : H) : list (Route H) :=
  mx ++ [{| method := "POST"; pattern := pattern; handler := h |}].

(** The methods of [methodMap]. *)
Definition methodMap : list string :=
  ["CONNECT"; "DELETE"; "GET"; "HEAD"; "OPTIONS"; "PATCH"; "POST"; "PUT"; "TRACE"].

Inductive found (H : Type) :=
| Found (h : H)
| MethodNotAllowed
| NotFound.
Arguments Found {H} h.
Arguments MethodNotAllowed {H}.
Arguments NotFound {H}.

(** [Mux.routeHTTP]: the handler for a method and a path.  A route
    registered later replaces an earlier one for the same method and
    pattern. *)
Definition routeHTTP {H} (mx : list (Route H)) (m path : string) : found H :=
  if negb (existsb (String.eqb m) methodMap) then MethodNotAllowed
  else
    match List.find (fun rt => String.eqb (pattern rt) path && String.eqb (method rt) m)
            (rev mx) with
    | Some rt => Found (handler rt)
    | None =>
        if existsb (fun rt => String.eqb (pattern rt) path) mx
        then MethodNotAllowed else NotFound
    end.

End chi.

(** [w.WriteHeader(status)]: the first status written is the one sent. *)
Definition WriteHeader {payload} (w : http.ResponseWriter payload) (status : Z)
  : http.ResponseWriter payload :=
  {| http.Header := http.Header w;
     http.Status := match http.Status w with Some s => Some s | None => Some status end;
     http.Encoded := http.Encoded w |}.

(** [http.NotFound(w, r)]; the text it writes after the header is not a
    value handed to a [json.Encoder] and leaves no record in the writer. *)
Definition http_NotFound {payload} (w : http.ResponseWriter payload)
  : http.ResponseWriter payload :=
  WriteHeader
    {| http.Header :=
         <["X-Content-Type-Options" := "nosniff"]>
           (<["Content-Type" := "text/plain; charset=utf-8"]> (http.Header w));
       http.Status := http.Status w;
       http.Encoded := http.Encoded w |}
    404.

(** A handler, as [http.HandlerFunc]. *)
Definition HandlerFunc : Type :=
  http.ResponseWriter (gmap string any) -> http.Request ->
  M (http.ResponseWriter (gmap string any)).

(** [Mux.ServeHTTP] with the handlers chi installs for requests that
    match no route. *)
Definition ServeHTTP (mx : list (chi.Route HandlerFunc)) (r : chi.Incoming)
    (w : http.ResponseWriter (gmap string any)) : M (http.ResponseWriter (gmap string any)) :=
  match chi.routeHTTP mx (chi.Method r) (chi.Path r) with
  | chi.Found h => h w (chi.Request r)
  | chi.MethodNotAllowed => ret (WriteHeader w 405)
  | chi.NotFound => ret (http_NotFound w)
  end.

(** What [func main] (lines 17-30) makes of the process: it prints and
    exits, or it serves on an address with a router until
    [http.ListenAndServe] returns, and prints then. *)
Inductive Process :=
| Exits (stdout : list string) (code : Z)
| Serves (addr : string) (router : list (chi.Route HandlerFunc)) (stdout_after : list string).

(** [func main]; [loaded] is the error of [godotenv.Load()], if any. *)
Definition main (loaded : option error) : Process :=
  match loaded with
  | Some _ => Exits ["Failed to load .env file"] 1
  | None =>
      let r := chi.NewRouter in
      let r := chi.Post r "/get-upload-url" GetUploadURLHandler in
      Serves ":3000" r ["Server started at http://localhost:3000"]
  end.


(** * The vocabulary of the statements *)

(** ** Requests and responses *)

(** [var body GeneratePresignedURLBody]. *)
Definition zeroBody : GeneratePresignedURLBody.t :=
  {| GeneratePresignedURLBody.ContentLength := 0 |}.

(** The handler serving a request with body [b] on a fresh writer. *)
Definition serve (env : Env) (st : State) (b : string)
  : http.ResponseWriter (gmap string any) * State :=
  GetUploadURLHandler http.fresh {| http.Body := b |} env st.

(** The body [b] decodes, without error, to the content length [cl]. *)
Definition decodes_to (b : string) (cl : Z) : Prop :=
  Decode b zeroBody = ({| GeneratePresignedURLBody.ContentLength := cl |}, None).

(** The body [b] fails to decode, with the error [err]. *)
Definition decode_fails (b : string) (err : error) : Prop :=
  snd (Decode b zeroBody) = Some err.

(** The request got the status [status] and the one envelope [envelope]. *)
Definition responds (env : Env) (st : State) (b : string)
    (status : Z) (envelope : gmap string any) : Prop :=
  http.Status (fst (serve env st b)) = Some status /\
  http.Encoded (fst (serve env st b)) = [envelope].

(** The request succeeded and returned the descriptor [d]. *)
Definition succeeds (env : Env) (st : State) (b : string)
    (d : GeneratePresignedURLResponse.t) : Prop :=
  responds env st b http.StatusOK (Success "pre-signed URL generated" (anyResponse d)).

(** The content length passes the handler's validation. *)
Definition in_range (cl : Z) : bool := negb ((cl <=? 0) || (cl >? MAX_UPLOAD_SIZE)).

(** The error has a message. *)
Definition worded (e : error) : Prop := json.Error_method e <> "".

(** ** The signer as the handler calls it *)

(** The value [os.Getenv] finds for [key]. *)
Definition getenv (env : Env) (key : string) : string :=
  default "" (environ env !! key).

(** The object key made from the [n]-th reading of the clock. *)
Definition fileNameAt (env : Env) (n : nat) : string :=
  fmt.Sprintf "%s.png"
    [fmt.str (time.Format (time.at_nanos (wallclock env n) (time_Local env))
                "2006-01-02-15-04-05")].

(** The parameters the handler hands to the signer for a request of
    content length [cl] arriving in state [st]. *)
Definition signingParam (env : Env) (st : State) (cl : Z) : GeneratePresignedURLParam.t :=
  {| GeneratePresignedURLParam.FileName := fileNameAt env (reads st);
     GeneratePresignedURLParam.Timout := 10 * time.Minute;
     GeneratePresignedURLParam.ContentLength := cl;
     GeneratePresignedURLParam.Bucket := getenv env "AWS_BUCKET";
     GeneratePresignedURLParam.ContentType := "image/png" |}.

(** The [s3.PutObjectInput] the signer makes of [param]. *)
Definition putObjectInput (param : GeneratePresignedURLParam.t) : s3.PutObjectInput :=
  {| s3.Bucket := GeneratePresignedURLParam.Bucket param;
     s3.Key := GeneratePresignedURLParam.FileName param;
     s3.ContentType := GeneratePresignedURLParam.ContentType param;
     s3.ContentLength := GeneratePresignedURLParam.ContentLength param |}.

(** What the SDK answers to the calls the signer makes for [param]. *)
Inductive answer :=
| NoSession (e : error)
| NoSignature (sess : aws.Session) (e : error)
| Signed (sess : aws.Session) (url : string).

(** The answer of the SDK of [env] to the signer called with [param]. *)
Definition provider (env : Env) (param : GeneratePresignedURLParam.t) : answer :=
  let cfg := {| aws.Region := getenv env "AWS_REGION" |} in
  match sdk_NewSession env cfg with
  | inl e => NoSession e
  | inr sess =>
      match sdk_Presign env sess (putObjectInput param)
              (GeneratePresignedURLParam.Timout param) with
      | inl e => NoSignature sess e
      | inr url => Signed sess url
      end
  end.

(** The state in which the handler enters the signer. *)
Definition entering (st : State) : State :=
  {| reads := S (reads st); calls := calls st |}.

(** What [GeneratePresignedURL] returns to the handler for a request of
    content length [cl] arriving in state [st]. *)
Definition signer_result (env : Env) (st : State) (cl : Z)
  : GeneratePresignedURLResponse.t * option error :=
  fst (GeneratePresignedURL (signingParam env st cl) env (entering st)).

(** The signer was invoked between the states [st] and [st']: it opens
    with [session.NewSession], which [st'] then records. *)
Definition signer_invoked (st st' : State) : Prop :=
  exists cfg more, calls st' = calls st ++ CallNewSession cfg :: more.

(** The response the signer builds for [param] when the SDK returned
    [url] and the clock then read [reading]. *)
Definition signed_response (env : Env) (reading : Z)
    (param : GeneratePresignedURLParam.t) (url : string)
  : GeneratePresignedURLResponse.t :=
  let host := fmt.Sprintf "%s.s3.amazonaws.com"
                [fmt.str (GeneratePresignedURLParam.Bucket param)] in
  {| GeneratePresignedURLResponse.Method := "PUT";
     GeneratePresignedURLResponse.PreAssignedURL := url;
     GeneratePresignedURLResponse.ExpirationTime :=
       time.Add (time.at_nanos reading (time_Local env))
         (GeneratePresignedURLParam.Timout param);
     GeneratePresignedURLResponse.FileName := GeneratePresignedURLParam.FileName param;
     GeneratePresignedURLResponse.Host := host;
     GeneratePresignedURLResponse.Details :=
       [ "Use the pre-signed URL to upload the file";
         fmt.Sprintf "The URL will expire after %d minutes"
           [fmt.int (GeneratePresignedURLParam.Timout param)];
         fmt.Sprintf "The maximum upload size is %d bytes"
           [fmt.int (GeneratePresignedURLParam.ContentLength param)] ];
     GeneratePresignedURLResponse.ObjectUrl :=
       fmt.Sprintf "https://%s/%s"
         [fmt.str host; fmt.str (GeneratePresignedURLParam.FileName param)] |}.

(** The descriptor of a request of content length [cl] served from the
    state [st], when the SDK returned [url]. *)
Definition descriptor (env : Env) (st : State) (cl : Z) (url : string)
  : GeneratePresignedURLResponse.t :=
  signed_response env (wallclock env (S (reads st))) (signingParam env st cl) url.

(** ** Time stamps *)

(** A wall-clock reading truncated to the second. *)
Definition truncated (ns : Z) (l : time.Location) : time.Time :=
  {| time.sec := ns / 1000000000; time.nsec := 0; time.loc := l |}.

(** The decimal digit [n] as a byte. *)
Definition digit (n : Z) : ascii := byte_of (48 + n).

(** Two and four decimal digits. *)
Definition DD (x : Z) : string :=
  String (digit (x / 10)) (String (digit (x mod 10)) "").
Definition DDDD (x : Z) : string :=
  String (digit (x / 1000)) (String (digit (x / 100 mod 10))
    (String (digit (x / 10 mod 10)) (String (digit (x mod 10)) ""))).

(** The text YYYY-MM-DD-HH-MM-SS of an instant. *)
Definition stamp (t : time.Time) : string :=
  DDDD (time.Year t) +:+ "-" +:+ DD (time.Month t) +:+ "-" +:+ DD (time.Day t)
    +:+ "-" +:+ DD (time.Hour t) +:+ "-" +:+ DD (time.Minute_of t)
    +:+ "-" +:+ DD (time.Second_of t).

(** ** Members of the body *)

(** A member of the body's object that the decoder stores into
    [ContentLength]: its key is [content_length], in any case of letters. *)
Definition content_length_member (m : string * json.value) : bool :=
  json.field_matches "content_length" (fst m).

(** ** Scanner results *)

(** A result that is not [OutOfFuel] and leaves fewer than [n] bytes. *)
Definition within {A} (n : nat) (r : json.scanned A) : Prop :=
  match r with
  | json.Ok _ rest => (String.length rest < n)%nat
  | json.OutOfFuel => False
  | _ => True
  end.

(** ** Sample worlds and requests *)

(** [s] between double quotes. *)
Definition quoted (s : string) : string := String dquote (s +:+ String dquote "").

(** The body [{"content_length": n}]. *)
Definition body_of (n : Z) : string :=
  "{" +:+ quoted "content_length" +:+ ": " +:+ strconv.Itoa n +:+ "}".

(** The state of a process that has served nothing yet. *)
Definition st0 : State := {| reads := 0; calls := [] |}.

(** A later state, within the same second of [signing_env]'s clock. *)
Definition st2 : State := {| reads := 2; calls := [] |}.

(** A world in which the SDK signs. *)
Definition signing_env : Env :=
  {| environ := {[ "AWS_BUCKET" := "uploads"; "AWS_REGION" := "eu-west-1" ]};
     wallclock := fun n => 1700000000123456789 + Z.of_nat n * 1000000;
     time_Local := utc;
     sdk_NewSession := fun cfg => inr {| aws.config := cfg; aws.handle := 0 |};
     sdk_Presign := fun sess input d => inr ("https://signed.example/" +:+ s3.Key input) |}.

(** A world in which no session can be made. *)
Definition sessionless_env : Env :=
  {| environ := {[ "AWS_BUCKET" := "uploads" ]};
     wallclock := wallclock signing_env;
     time_Local := utc;
     sdk_NewSession := fun cfg => inl (sdkError "MissingRegion: could not find region configuration");
     sdk_Presign := sdk_Presign signing_env |}.

(** A world in which signing fails. *)
Definition unsigned_env : Env :=
  {| environ := environ signing_env;
     wallclock := wallclock signing_env;
     time_Local := utc;
     sdk_NewSession := sdk_NewSession signing_env;
     sdk_Presign := fun sess input d => inl (sdkError "NoCredentialProviders: no valid providers in chain") |}.

(** The descriptor returned by [signing_env] for the body
    [{"content_length": 5}] served from [st0]. *)
Definition descriptor5 : GeneratePresignedURLResponse.t :=
  {| GeneratePresignedURLResponse.Method := "PUT";
     GeneratePresignedURLResponse.PreAssignedURL :=
       "https://signed.example/2023-11-14-22-13-20.png";
     GeneratePresignedURLResponse.ExpirationTime :=
       {| time.sec := 1700000600; time.nsec := 124456789; time.loc := utc |};
     GeneratePresignedURLResponse.FileName := "2023-11-14-22-13-20.png";
     GeneratePresignedURLResponse.Host := "uploads.s3.amazonaws.com";
     GeneratePresignedURLResponse.Details :=
       [ "Use the pre-signed URL to upload the file";
         "The URL will expire after 600000000000 minutes";
         "The maximum upload size is 5 bytes" ];
     GeneratePresignedURLResponse.ObjectUrl :=
       "https://uploads.s3.amazonaws.com/2023-11-14-22-13-20.png" |}.

(** [d] with another expiration time and other details. *)
Definition with_details (d : GeneratePresignedURLResponse.t) (expires : time.Time)
    (details : list string) : GeneratePresignedURLResponse.t :=
  {| GeneratePresignedURLResponse.Method := GeneratePresignedURLResponse.Method d;
     GeneratePresignedURLResponse.PreAssignedURL :=
       GeneratePresignedURLResponse.PreAssignedURL d;
     GeneratePresignedURLResponse.ExpirationTime := expires;
     GeneratePresignedURLResponse.FileName := GeneratePresignedURLResponse.FileName d;
     GeneratePresignedURLResponse.Host := GeneratePresignedURLResponse.Host d;
     GeneratePresignedURLResponse.Details := details;
     GeneratePresignedURLResponse.ObjectUrl := GeneratePresignedURLResponse.ObjectUrl d |}.

(** The descriptor returned by [signing_env] for the body
    [{"content_length": 6}] served from [st0]. *)
Definition descriptor6 : GeneratePresignedURLResponse.t :=
  with_details descriptor5
    {| time.sec := 1700000600; time.nsec := 124456789; time.loc := utc |}
    [ "Use the pre-signed URL to upload the file";
      "The URL will expire after 600000000000 minutes";
      "The maximum upload size is 6 bytes" ].

(** The descriptor returned by [signing_env] for the body
    [{"content_length": 7}] served from [st2]. *)
Definition descriptor7 : GeneratePresignedURLResponse.t :=
  with_details descriptor5
    {| time.sec := 1700000600; time.nsec := 126456789; time.loc := utc |}
    [ "Use the pre-signed URL to upload the file";
      "The URL will expire after 600000000000 minutes";
      "The maximum upload size is 7 bytes" ].

(** Three bodies that carry the content length 5: alone, alone under
    another spelling of the key, and next to other members. *)
Definition body_alone : string := body_of 5.
Definition body_respelled : string := "  {" +:+ quoted "CONTENT_LENGTH" +:+ ":5} ".
Definition body_extra : string :=
  "{" +:+ quoted "content_length" +:+ ": 5, " +:+ quoted "file_name" +:+ ": "
      +:+ quoted "../../etc/passwd" +:+ ", " +:+ quoted "tags" +:+ ": [1, {}]}".

(** The body [{"content_length": 5}] with a second member, whose key is
    [content_length] in another case. *)
Definition body_recased : string :=
  "{" +:+ quoted "content_length" +:+ ": 5, " +:+ quoted "Content_Length" +:+ ": 2000000}".

(** Closes a [responds] or [succeeds] goal on concrete data. *)
Ltac by_evaluation := split; vm_compute; reflexivity.

(** ** Any writer, any state *)

(** The handler serving a request with body [b] on the writer [w]. *)
Definition handle (env : Env) (st : State) (w : http.ResponseWriter (gmap string any))
    (b : string) : http.ResponseWriter (gmap string any) * State :=
  GetUploadURLHandler w {| http.Body := b |} env st.

(** The configuration the signer makes its session with. *)
Definition sessionConfig (env : Env) : aws.Config :=
  {| aws.Region := getenv env "AWS_REGION" |}.

(** The call by which the signer has [param] signed in the session [sess]. *)
Definition presignCall (sess : aws.Session) (param : GeneratePresignedURLParam.t) : Call :=
  CallPresign sess (putObjectInput param) (GeneratePresignedURLParam.Timout param).

(** ** Bytes of a string *)

Fixpoint all_bytes (p : ascii -> bool) (s : string) : bool :=
  match s with
  | EmptyString => true
  | String c rest => p c && all_bytes p rest
  end.

(** The bytes a formatted time stamp is made of: digits and dashes. *)
Definition stamp_byte (c : ascii) : bool := json.isDigit c || json.eqc c "-".

(** ** Routing *)

(** The request is a POST to the one registered pattern. *)
Definition is_upload_request (r : chi.Incoming) : bool :=
  String.eqb (chi.Method r) "POST" && String.eqb (chi.Path r) "/get-upload-url".

(** ** More sample data *)

(** A writer on which a middleware has set a header. *)
Definition traced_writer : http.ResponseWriter (gmap string any) :=
  {| http.Header := {[ "X-Request-Id" := "7" ]}; http.Status := None; http.Encoded := [] |}.

(** A body without a [content_length] member. *)
Definition body_without : string := "{" +:+ quoted "size" +:+ ": 5}".

(** ** The paths of the handler

    [path env st b status envelope st']: serving the body [b] from the
    state [st] takes the path that sends [envelope] with [status] and
    leaves the state [st']. *)
Inductive path (env : Env) (st : State) (b : string)
  : Z -> gmap string any -> State -> Prop :=
| BadBody err :
    decode_fails b err ->
    path env st b 400 (Error "invalid request body" (Some err)) st
| BadLength cl :
    decodes_to b cl -> in_range cl = false ->
    path env st b 400 (Error "invalid content length" None) st
| SessionFailed cl e :
    decodes_to b cl -> in_range cl = true ->
    provider env (signingParam env st cl) = NoSession e ->
    path env st b 500
      (Error "failed to create AWS session"
         (Some (errorString "failed to create AWS session")))
      {| reads := S (reads st);
         calls := calls st ++ [CallNewSession (sessionConfig env)] |}
| SigningFailed cl sess e :
    decodes_to b cl -> in_range cl = true ->
    provider env (signingParam env st cl) = NoSignature sess e ->
    path env st b 500
      (Error "failed to create AWS session" (Some (errorString "failed to sign request")))
      {| reads := S (reads st);
         calls := calls st ++ [CallNewSession (sessionConfig env);
                               presignCall sess (signingParam env st cl)] |}
| Granted cl sess url :
    decodes_to b cl -> in_range cl = true ->
    provider env (signingParam env st cl) = Signed sess url ->
    path env st b 200
      (Success "pre-signed URL generated" (anyResponse (descriptor env st cl url)))
      {| reads := S (S (reads st));
         calls := calls st ++ [CallNewSession (sessionConfig env);
                               presignCall sess (signingParam env st cl)] |}.

(** A signer parameter with a timeout that is no whole number of seconds. *)
Definition odd_param : GeneratePresignedURLParam.t :=
  {| GeneratePresignedURLParam.FileName := "a.png";
     GeneratePresignedURLParam.Timout := 1999999999;
     GeneratePresignedURLParam.ContentLength := 3;
     GeneratePresignedURLParam.Bucket := "b";
     GeneratePresignedURLParam.ContentType := "image/png" |}.

(** ** Bodies without a content length *)

(** The JSON value of the body is [null], or an object none of whose
    members is stored into [ContentLength]. *)
Definition lacks_content_length (b : string) : bool :=
  match json.readValue b with
  | inr json.Null => true
  | inr (json.Object ms) => forallb (fun m => negb (content_length_member m)) ms
  | _ => false
  end.

(** ** Requests at the router *)

(** A GET of the upload pattern, a POST elsewhere and a POST of the
    upload pattern, all with the body [{"content_length": 5}]. *)
Definition get_upload : chi.Incoming :=
  {| chi.Method := "GET"; chi.Path := "/get-upload-url";
     chi.Request := {| http.Body := body_of 5 |} |}.
Definition post_elsewhere : chi.Incoming :=
  {| chi.Method := "POST"; chi.Path := "/get-upload-url/";
     chi.Request := {| http.Body := body_of 5 |} |}.
Definition post_upload : chi.Incoming :=
  {| chi.Method := "POST"; chi.Path := "/get-upload-url";
     chi.Request := {| http.Body := body_of 5 |} |}.

(** ** Evaluation of byte codes *)

(** Replaces the code of a given byte by its value. *)
Ltac digit_code :=
  match goal with
  | |- context [code ?c] =>
      let v := eval vm_compute in (code c) in change (code c) with v
  end.

(** * Properties *)

(** ** The models on samples *)

Example Format_sample :
  time.Format (time.at_nanos 1700000000123456789 utc) "2006-01-02-15-04-05"
  = "2023-11-14-22-13-20".
Proof. vm_compute. reflexivity. Qed.

Example Itoa_sample : strconv.Itoa (-1048576) = "-1048576" /\ strconv.Itoa 0 = "0".
Proof. vm_compute. split; reflexivity. Qed.

(** Bodies that are not of the shape [{content_length: integer}] and
    decode all the same: [null] and a missing or [null] member leave the
    field at zero. *)
Example decodes_without_content_length :
  decodes_to "null" 0 /\ decodes_to "{}" 0 /\
  decodes_to ("{" +:+ quoted "content_length" +:+ ": null}") 0.
Proof. repeat split; vm_compute; reflexivity. Qed.

(** A type mismatch is a decode error, reported once the value is read. *)
Example decode_type_mismatch :
  decode_fails ("{" +:+ quoted "content_length" +:+ ": 1.5}")
    (UnmarshalTypeError "number 1.5" "int64" "GeneratePresignedURLBody" "content_length").
Proof. vm_compute. reflexivity. Qed.

(** The signer reports a failed session in its own words: the message
    of the SDK's error is not passed on. *)
Example sessionless_sample :
  responds sessionless_env st0 (body_of 5) 500
    (Error "failed to create AWS session"
       (Some (errorString "failed to create AWS session"))).
Proof. by_evaluation. Qed.

Example serve_sample :
  GeneratePresignedURLResponse.FileName <$>
    (match http.Encoded (fst (serve signing_env st0 (body_of 5))) with
     | [envelope] => match envelope !! "data" with Some (anyResponse d) => Some d | _ => None end
     | _ => None
     end)
  = Some "2023-11-14-22-13-20.png".
Proof. vm_compute. reflexivity. Qed.

(** ** The formats of the program *)

Lemma append_empty (s : string) : s +:+ "" = s.
Proof.
  induction s as [|c s IH]; [reflexivity|].
  change (String c s +:+ "") with (String c (s +:+ "")). by rewrite IH.
Qed.

Lemma Sprintf_png s : fmt.Sprintf "%s.png" [fmt.str s] = s +:+ ".png".
Proof. reflexivity. Qed.

Lemma Sprintf_host bucket :
  fmt.Sprintf "%s.s3.amazonaws.com" [fmt.str bucket] = bucket +:+ ".s3.amazonaws.com".
Proof. reflexivity. Qed.


Lemma Sprintf_expire x :
  fmt.Sprintf "The URL will expire after %d minutes" [fmt.int x]
  = "The URL will expire after " +:+ strconv.Itoa x +:+ " minutes".
Proof. reflexivity. Qed.

Lemma Sprintf_maxsize x :
  fmt.Sprintf "The maximum upload size is %d bytes" [fmt.int x]
  = "The maximum upload size is " +:+ strconv.Itoa x +:+ " bytes".
Proof. reflexivity. Qed.

(** ** The signer *)

Section Signer.
Variables (env : Env) (st : State) (param : GeneratePresignedURLParam.t).

Let cfg := {| aws.Region := getenv env "AWS_REGION" |}.

Lemma signer_no_session e :
  provider env param = NoSession e ->
  GeneratePresignedURL param env st =
    ((zeroResponse, Some (errorString "failed to create AWS session")),
     {| reads := reads st; calls := calls st ++ [CallNewSession cfg] |}).
Proof.
  unfold provider, GeneratePresignedURL, bind, os_Getenv, session_NewSession, getenv.
  cbn. fold (getenv env "AWS_REGION").
  destruct (sdk_NewSession env _) as [e'|sess] eqn:Hs; [reflexivity|].
  destruct (sdk_Presign env sess _ _); discriminate.
Qed.

Lemma signer_no_signature sess e :
  provider env param = NoSignature sess e ->
  GeneratePresignedURL param env st =
    ((zeroResponse, Some (errorString "failed to sign request")),
     {| reads := reads st;
        calls := (calls st ++ [CallNewSession cfg])
                   ++ [CallPresign sess (putObjectInput param)
                         (GeneratePresignedURLParam.Timout param)] |}).
Proof.
  unfold provider, GeneratePresignedURL, bind, os_Getenv, session_NewSession,
    s3_Presign, getenv.
  cbn. fold (getenv env "AWS_REGION").
  destruct (sdk_NewSession env _) as [e'|sess'] eqn:Hs; [discriminate|].
  cbn. fold (putObjectInput param).
  destruct (sdk_Presign env sess' _ _) eqn:Hp; [|discriminate].
  intros [= -> ->]. reflexivity.
Qed.

Lemma signer_signed sess url :
  provider env param = Signed sess url ->
  GeneratePresignedURL param env st =
    ((signed_response env (wallclock env (reads st)) param url, None),
     {| reads := S (reads st);
        calls := (calls st ++ [CallNewSession cfg])
                   ++ [CallPresign sess (putObjectInput param)
                         (GeneratePresignedURLParam.Timout param)] |}).
Proof.
  unfold provider, GeneratePresignedURL, bind, os_Getenv, session_NewSession,
    s3_Presign, time_Now, getenv.
  cbn. fold (getenv env "AWS_REGION").
  destruct (sdk_NewSession env _) as [e'|sess'] eqn:Hs; [discriminate|].
  cbn. fold (putObjectInput param).
  destruct (sdk_Presign env sess' _ _) eqn:Hp; [discriminate|].
  intros [= -> ->]. reflexivity.
Qed.

(** Every run of the signer is recorded: it calls [session.NewSession]
    before anything else. *)
Lemma signer_is_recorded :
  signer_invoked st (snd (GeneratePresignedURL param env st)).
Proof.
  unfold signer_invoked.
  destruct (provider env param) as [e|sess e|sess url] eqn:Hp.
  - rewrite (signer_no_session e Hp). cbn. exists cfg, []. reflexivity.
  - rewrite (signer_no_signature sess e Hp). cbn.
    exists cfg, [CallPresign sess (putObjectInput param)
                   (GeneratePresignedURLParam.Timout param)].
    rewrite <- app_assoc. reflexivity.
  - rewrite (signer_signed sess url Hp). cbn.
    exists cfg, [CallPresign sess (putObjectInput param)
                   (GeneratePresignedURLParam.Timout param)].
    rewrite <- app_assoc. reflexivity.
Qed.

End Signer.

(** ** The handler, path by path *)

Lemma in_range_spec cl : in_range cl = true <-> 0 < cl <= 1048576.
Proof. unfold in_range, MAX_UPLOAD_SIZE. destruct (Z.leb_spec cl 0), (Z.gtb_spec cl (1 * 1024 * 1024)); cbn; split; intros; try discriminate; try lia; reflexivity.
Qed.

Lemma out_of_range_spec cl : in_range cl = false <-> cl <= 0 \/ cl > 1048576.
Proof.
  destruct (in_range cl) eqn:H.
  - apply in_range_spec in H. split; [discriminate | lia].
  - split; [|reflexivity]. intros _.
    destruct (Z_le_gt_dec cl 0); [lia|]. destruct (Z_le_gt_dec cl 1048576); [|lia].
    assert (in_range cl = true) by (apply in_range_spec; lia). congruence.
Qed.

Section Paths.
Variables (env : Env) (st : State) (b : string).

Lemma serve_decode_error err :
  decode_fails b err ->
  serve env st b =
    (SendResponse http.fresh (Error "invalid request body" (Some err))
       http.StatusBadRequest, st).
Proof.
  unfold decode_fails, serve, GetUploadURLHandler. cbn [http.Body].
  fold zeroBody. destruct (Decode b zeroBody) as [body e]. cbn [snd].
  intros ->. reflexivity.
Qed.

Lemma serve_invalid_length cl :
  decodes_to b cl -> in_range cl = false ->
  serve env st b =
    (SendResponse http.fresh (Error "invalid content length" None)
       http.StatusBadRequest, st).
Proof.
  unfold decodes_to, serve, GetUploadURLHandler, in_range. cbn [http.Body].
  fold zeroBody. intros -> H. cbn [GeneratePresignedURLBody.ContentLength].
  apply negb_false_iff in H. rewrite H. reflexivity.
Qed.

Lemma serve_valid cl :
  decodes_to b cl -> in_range cl = true ->
  serve env st b =
    let '(res, err, st') :=
      GeneratePresignedURL (signingParam env st cl) env (entering st) in
    match err with
    | Some err =>
        (SendResponse http.fresh (Error "failed to create AWS session" (Some err))
           http.StatusInternalServerError, st')
    | None =>
        (SendResponse http.fresh
           (Success "pre-signed URL generated"
              (anyResponse
                 {| GeneratePresignedURLResponse.Method :=
                      GeneratePresignedURLResponse.Method res;
                    GeneratePresignedURLResponse.PreAssignedURL :=
                      GeneratePresignedURLResponse.PreAssignedURL res;
                    GeneratePresignedURLResponse.ExpirationTime :=
                      GeneratePresignedURLResponse.ExpirationTime res;
                    GeneratePresignedURLResponse.FileName :=
                      GeneratePresignedURLResponse.FileName res;
                    GeneratePresignedURLResponse.Host :=
                      GeneratePresignedURLResponse.Host res;
                    GeneratePresignedURLResponse.Details :=
                      GeneratePresignedURLResponse.Details res;
                    GeneratePresignedURLResponse.ObjectUrl :=
                      GeneratePresignedURLResponse.ObjectUrl res |}))
           http.StatusOK, st')
    end.
Proof.
  unfold decodes_to, serve, GetUploadURLHandler, in_range. cbn [http.Body].
  fold zeroBody. intros -> H. cbn [GeneratePresignedURLBody.ContentLength].
  apply negb_true_iff in H. rewrite H.
  unfold signingParam, fileNameAt, getenv, entering.
  unfold bind at 1. unfold time_Now at 1. unfold bind at 1. unfold os_Getenv at 1.
  unfold bind at 1. cbv beta iota.
  match goal with
  | |- context [GeneratePresignedURL ?p env ?s] =>
      destruct (GeneratePresignedURL p env s) as [[res [err|]] st']
  end; reflexivity.
Qed.

Lemma serve_no_session cl e :
  decodes_to b cl -> in_range cl = true ->
  provider env (signingParam env st cl) = NoSession e ->
  serve env st b =
    (SendResponse http.fresh
       (Error "failed to create AWS session"
          (Some (errorString "failed to create AWS session")))
       http.StatusInternalServerError,
     snd (GeneratePresignedURL (signingParam env st cl) env (entering st))).
Proof.
  intros Hd Hr Hp. rewrite (serve_valid cl Hd Hr).
  rewrite (signer_no_session env (entering st) _ e Hp). reflexivity.
Qed.

Lemma serve_no_signature cl sess e :
  decodes_to b cl -> in_range cl = true ->
  provider env (signingParam env st cl) = NoSignature sess e ->
  serve env st b =
    (SendResponse http.fresh
       (Error "failed to create AWS session"
          (Some (errorString "failed to sign request")))
       http.StatusInternalServerError,
     snd (GeneratePresignedURL (signingParam env st cl) env (entering st))).
Proof.
  intros Hd Hr Hp. rewrite (serve_valid cl Hd Hr).
  rewrite (signer_no_signature env (entering st) _ sess e Hp). reflexivity.
Qed.

Lemma serve_signed cl sess url :
  decodes_to b cl -> in_range cl = true ->
  provider env (signingParam env st cl) = Signed sess url ->
  serve env st b =
    (SendResponse http.fresh
       (Success "pre-signed URL generated" (anyResponse (descriptor env st cl url)))
       http.StatusOK,
     snd (GeneratePresignedURL (signingParam env st cl) env (entering st))).
Proof.
  intros Hd Hr Hp. rewrite (serve_valid cl Hd Hr).
  rewrite (signer_signed env (entering st) _ sess url Hp). reflexivity.
Qed.

End Paths.

(** ** Envelopes and the recording writer *)

Lemma sent_status (r : gmap string any) (status : Z) :
  http.Status (SendResponse http.fresh r status) = Some status.
Proof. reflexivity. Qed.

Lemma sent_body (r : gmap string any) (status : Z) :
  http.Encoded (SendResponse http.fresh r status) = [r].
Proof. reflexivity. Qed.

Lemma Error_success message err : Error message err !! "success" = Some (anyBool false).
Proof. unfold Error. destruct err; by simplify_map_eq. Qed.

Lemma Error_message message err : Error message err !! "message" = Some (anyString message).
Proof. unfold Error. destruct err; by simplify_map_eq. Qed.

Lemma Error_error message err :
  Error message err !! "error" = (fun e => anyString (json.Error_method e)) <$> err.
Proof. unfold Error. destruct err; by simplify_map_eq. Qed.

Lemma Error_keys_nil message :
  dom (Error message None) = ({[ "success"; "message" ]} : gset string).
Proof. unfold Error. rewrite dom_insert_L, dom_singleton_L. reflexivity. Qed.

Lemma Error_keys_err message err :
  dom (Error message (Some err)) = ({[ "success"; "message"; "error" ]} : gset string).
Proof.
  unfold Error. rewrite !dom_insert_L, dom_singleton_L. set_solver.
Qed.

Lemma Success_success message data : Success message data !! "success" = Some (anyBool true).
Proof. unfold Success. by simplify_map_eq. Qed.

Lemma Success_data message data : Success message data !! "data" = Some data.
Proof. unfold Success. by simplify_map_eq. Qed.

Lemma Success_keys message data :
  dom (Success message data) = ({[ "success"; "message"; "data" ]} : gset string).
Proof. unfold Success. rewrite !dom_insert_L, dom_singleton_L. set_solver. Qed.

Lemma only_one {A} (x y : A) : [x] = [y] -> x = y.
Proof. intros H. injection H. auto. Qed.

Lemma some_inj {A} (x y : A) : Some x = Some y -> x = y.
Proof. intros H. injection H. auto. Qed.

Lemma anyResponse_inj d1 d2 : anyResponse d1 = anyResponse d2 -> d1 = d2.
Proof. intros H. injection H. auto. Qed.

Lemma not_invoked st : ~ signer_invoked st st.
Proof.
  intros (cfg & more & H). apply (f_equal (@length Call)) in H.
  rewrite length_app in H. cbn in H. lia.
Qed.

(** The fields of the descriptor. *)
Section Descriptor.
Variables (env : Env) (st : State) (cl : Z) (url : string).

Lemma descriptor_FileName :
  GeneratePresignedURLResponse.FileName (descriptor env st cl url)
  = time.Format (time.at_nanos (wallclock env (reads st)) (time_Local env))
      "2006-01-02-15-04-05" +:+ ".png".
Proof.
  unfold descriptor, signed_response, signingParam, fileNameAt.
  cbn [GeneratePresignedURLResponse.FileName GeneratePresignedURLParam.FileName].
  apply Sprintf_png.
Qed.

Lemma descriptor_Host :
  GeneratePresignedURLResponse.Host (descriptor env st cl url)
  = getenv env "AWS_BUCKET" +:+ ".s3.amazonaws.com".
Proof.
  unfold descriptor, signed_response, signingParam.
  cbn [GeneratePresignedURLResponse.Host GeneratePresignedURLParam.Bucket].
  apply Sprintf_host.
Qed.


Lemma descriptor_ExpirationTime :
  GeneratePresignedURLResponse.ExpirationTime (descriptor env st cl url)
  = time.Add (time.at_nanos (wallclock env (S (reads st))) (time_Local env))
      (10 * time.Minute).
Proof.
  unfold descriptor, signed_response, signingParam.
  cbn [GeneratePresignedURLResponse.ExpirationTime GeneratePresignedURLParam.Timout].
  reflexivity.
Qed.

Lemma descriptor_Details :
  GeneratePresignedURLResponse.Details (descriptor env st cl url)
  = [ "Use the pre-signed URL to upload the file";
      "The URL will expire after " +:+ strconv.Itoa (10 * time.Minute) +:+ " minutes";
      "The maximum upload size is " +:+ strconv.Itoa cl +:+ " bytes" ].
Proof.
  unfold descriptor, signed_response, signingParam.
  cbn [GeneratePresignedURLResponse.Details GeneratePresignedURLParam.Timout
       GeneratePresignedURLParam.ContentLength].
  by rewrite Sprintf_expire, Sprintf_maxsize.
Qed.

End Descriptor.

(** A successful request is a request whose body decodes to a length in
    range and for which the SDK signs. *)
Lemma succeeds_inv env st b d :
  succeeds env st b d ->
  exists cl sess url,
    decodes_to b cl /\ in_range cl = true /\
    provider env (signingParam env st cl) = Signed sess url /\
    d = descriptor env st cl url.
Proof.
  unfold succeeds, responds. intros [Hs Hb].
  destruct (Decode b zeroBody) as [[cl] [err|]] eqn:Hd.
  - rewrite (serve_decode_error env st b err) in Hs by (unfold decode_fails; by rewrite Hd).
    discriminate.
  - destruct (in_range cl) eqn:Hr.
    + destruct (provider env (signingParam env st cl)) as [e|sess e|sess url] eqn:Hp.
      * rewrite (serve_no_session env st b cl e Hd Hr Hp) in Hs. discriminate.
      * rewrite (serve_no_signature env st b cl sess e Hd Hr Hp) in Hs. discriminate.
      * rewrite (serve_signed env st b cl sess url Hd Hr Hp) in Hb.
        cbn [fst] in Hb. rewrite sent_body in Hb.
        apply only_one in Hb.
        apply (f_equal (fun m : gmap string any => m !! "data")) in Hb.
        rewrite !Success_data in Hb. apply some_inj, anyResponse_inj in Hb.
        exists cl, sess, url. auto.
    + rewrite (serve_invalid_length env st b cl Hd Hr) in Hs. discriminate.
Qed.

(** ** The scanner does not run out of fuel *)

Lemma within_mono {A} n m (r : json.scanned A) : (n <= m)%nat -> within n r -> within m r.
Proof. destruct r; cbn; lia. Qed.

Lemma skipSpace_le s : (String.length (json.skipSpace s) <= String.length s)%nat.
Proof.
  induction s as [|c s IH]; cbn; [lia|]. destruct (json.isSpace c); cbn; lia.
Qed.

Lemma within_next {A} s (k : ascii -> string -> json.scanned A) n :
  (forall c rest, (String.length rest < String.length s)%nat -> within n (k c rest)) ->
  within n (json.next s k).
Proof.
  intros H. unfold json.next. pose proof (skipSpace_le s) as Hle.
  destruct (json.skipSpace s) as [|c rest]; cbn in *; [exact I|]. apply H. lia.
Qed.

Lemma within_andThen {A B} (r : json.scanned A) (k : A -> string -> json.scanned B) n m :
  within n r ->
  (forall a rest, (String.length rest < n)%nat -> within m (k a rest)) ->
  within m (json.andThen r k).
Proof. destruct r; cbn; auto; contradiction. Qed.

Lemma scan_string_within s : forall st, within (S (String.length s)) (json.scan_string st s).
Proof.
  induction s as [|c s IH]; intros st; cbn; [exact I|].
  assert (Hkeep : forall st',
            within (S (S (String.length s)))
              match json.scan_string st' s with
              | json.Ok raw rest' => json.Ok (String c raw) rest'
              | other => other
              end).
  { intros st'. specialize (IH st'). destruct (json.scan_string st' s); cbn in *; auto. }
  destruct st as [| |seen];
    repeat match goal with
           | |- context [if ?x then _ else _] => destruct x
           end; cbn; auto; lia.
Qed.

Lemma scan_number_within s : forall st, within (S (String.length s)) (json.scan_number st s).
Proof.
  induction s as [|c s IH]; intros st; cbn.
  - destruct st; cbn; auto.
  - assert (Hkeep : forall st',
              within (S (S (String.length s)))
                match json.scan_number st' s with
                | json.Ok lit rest' => json.Ok (String c lit) rest'
                | other => other
                end).
    { intros st'. specialize (IH st'). destruct (json.scan_number st' s); cbn in *; auto. }
    destruct st;
      repeat match goal with
             | |- context [if ?x then _ else _] => destruct x
             end; cbn; auto; lia.
Qed.

Lemma scan_word_within name expect : forall s,
  within (S (String.length s)) (json.scan_word name expect s).
Proof.
  induction expect as [|e expect IH]; intros s; cbn; [lia|].
  destruct s as [|c s]; [exact I|]. destruct (json.eqc c e); [|exact I].
  apply (within_mono (S (String.length s))); [cbn; lia | apply IH].
Qed.

Lemma scan_within fuel :
  (forall depth s, (2 * String.length s < fuel)%nat ->
     within (String.length s) (json.scan_value fuel depth s)) /\
  (forall depth acc s, (2 * String.length s < fuel)%nat ->
     within (String.length s) (json.scan_members fuel depth acc s)) /\
  (forall depth acc s, (2 * String.length s + 1 < fuel)%nat ->
     within (String.length s) (json.scan_elements fuel depth acc s)).
Proof.
  induction fuel as [|f (IHv & IHm & IHe)]; [repeat split; intros; lia|].
  repeat split.
  - intros depth s Hf. cbn [json.scan_value].
    apply within_next. intros c rest Hlt.
    destruct (json.eqc c "{").
    { destruct (json.maxNestingDepth <=? depth); [exact I|].
      apply within_next. intros c1 rest1 Hlt1.
      destruct (json.eqc c1 "}"); [cbn; lia|].
      apply (within_mono (String.length (String c1 rest1))); [cbn; lia|].
      apply IHm. cbn. lia. }
    destruct (json.eqc c "[").
    { destruct (json.maxNestingDepth <=? depth); [exact I|].
      apply within_next. intros c1 rest1 Hlt1.
      destruct (json.eqc c1 "]"); [cbn; lia|].
      apply (within_mono (String.length (String c1 rest1))); [cbn; lia|].
      apply IHe. cbn. lia. }
    destruct (json.eqc c dquote).
    { eapply within_andThen; [apply scan_string_within|]. intros; cbn; lia. }
    destruct (json.eqc c "-").
    { eapply within_andThen; [apply scan_number_within|]. intros; cbn; lia. }
    destruct (json.eqc c "0").
    { eapply within_andThen; [apply scan_number_within|]. intros; cbn; lia. }
    destruct (json.isDigit19 c).
    { eapply within_andThen; [apply scan_number_within|]. intros; cbn; lia. }
    destruct (json.eqc c "t").
    { eapply within_andThen; [apply scan_word_within|]. intros; cbn; lia. }
    destruct (json.eqc c "f").
    { eapply within_andThen; [apply scan_word_within|]. intros; cbn; lia. }
    destruct (json.eqc c "n").
    { eapply within_andThen; [apply scan_word_within|]. intros; cbn; lia. }
    exact I.
  - intros depth acc s Hf. cbn [json.scan_members].
    apply within_next. intros c rest Hlt.
    destruct (json.eqc c dquote); [|exact I].
    eapply within_andThen; [apply scan_string_within|]. intros raw rest1 Hlt1.
    apply within_next. intros c2 rest2 Hlt2.
    destruct (json.eqc c2 ":"); [|exact I].
    eapply within_andThen; [apply IHv; lia|]. intros v rest3 Hlt3.
    apply within_next. intros c4 rest4 Hlt4.
    destruct (json.eqc c4 ",").
    { apply (within_mono (String.length rest4)); [lia|]. apply IHm. lia. }
    destruct (json.eqc c4 "}"); [cbn; lia | exact I].
  - intros depth acc s Hf. cbn [json.scan_elements].
    eapply within_andThen; [apply IHv; lia|]. intros v rest1 Hlt1.
    apply within_next. intros c rest2 Hlt2.
    destruct (json.eqc c ",").
    { apply (within_mono (String.length rest2)); [lia|]. apply IHe. lia. }
    destruct (json.eqc c "]"); [cbn; lia | exact I].
Qed.

(** [readValue] gives its scanner fuel enough for every body. *)
Lemma readValue_fuel body :
  json.scan_value (2 * String.length body + 2) 0 body <> json.OutOfFuel.
Proof.
  pose proof (proj1 (scan_within (2 * String.length body + 2)) 0 body ltac:(lia)) as H.
  intros E. rewrite E in H. exact H.
Qed.

(** ** Decode errors carry a message *)

Lemma SyntaxError_worded c context : worded (SyntaxError c context).
Proof. unfold worded, json.Error_method. intros H. discriminate H. Qed.

Lemma UnmarshalTypeError_worded v t s f : worded (UnmarshalTypeError v t s f).
Proof.
  unfold worded, json.Error_method.
  destruct (negb (s =? "")%string || negb (f =? "")%string); intros H; discriminate H.
Qed.

Section DecodeErrors.
Variables structType structName fieldName : string.

Lemma store_int64_worded v cur n e :
  json.store_int64 structName fieldName v cur = (n, Some e) -> worded e.
Proof.
  unfold json.store_int64.
  destruct v as [|x|lit|s|vs|ms]; try destruct (json.ParseInt64 lit);
    intros [= _ <-] || intros [=]; apply UnmarshalTypeError_worded.
Qed.

Lemma object_worded ms : forall cur saved n e,
  json.object structName fieldName ms cur saved = (n, Some e) ->
  (forall e0, saved = Some e0 -> worded e0) -> worded e.
Proof.
  induction ms as [|[key v] ms IH]; intros cur saved n e; cbn.
  - intros [= _ ->] Hs. by apply Hs.
  - destruct (json.field_matches fieldName key); [|by apply IH].
    destruct (json.store_int64 structName fieldName v cur) as [cur' e1] eqn:Hst.
    intros H Hs. apply (IH _ _ _ _ H).
    intros e0. destruct saved as [e2|]; [by apply Hs|].
    intros ->. by apply (store_int64_worded _ _ _ _ Hst).
Qed.

Lemma unmarshal_worded v cur n e :
  json.unmarshal structType structName fieldName v cur = (n, Some e) -> worded e.
Proof.
  destruct v as [|x|lit|s|vs|ms]; cbn;
    try (intros [= _ <-]; apply UnmarshalTypeError_worded).
  intros H. apply (object_worded _ _ _ _ _ H). intros e0 [=].
Qed.

Lemma readValue_worded body e : json.readValue body = inl e -> worded e.
Proof.
  unfold json.readValue.
  destruct (json.scan_value _ _ _); try destruct (json.nonSpace body);
    intros [= <-]; try apply SyntaxError_worded; intros H; discriminate H.
Qed.

Lemma json_Decode_worded body cur n e :
  json.Decode structType structName fieldName body cur = (n, Some e) -> worded e.
Proof.
  unfold json.Decode. destruct (json.readValue body) as [err|v] eqn:Hr.
  - intros [= _ <-]. by apply (readValue_worded body).
  - apply unmarshal_worded.
Qed.

End DecodeErrors.

Lemma decode_fails_worded b err : decode_fails b err -> worded err.
Proof.
  unfold decode_fails, Decode.
  destruct (json.Decode _ _ _ b _) as [n e] eqn:Hd. cbn. intros ->.
  by apply (json_Decode_worded _ _ _ _ _ _ _ Hd).
Qed.

(** ** The signer as the handler calls it *)

Lemma signer_result_cases env st cl :
  match provider env (signingParam env st cl) with
  | NoSession _ =>
      signer_result env st cl =
        (zeroResponse, Some (errorString "failed to create AWS session"))
  | NoSignature _ _ =>
      signer_result env st cl = (zeroResponse, Some (errorString "failed to sign request"))
  | Signed _ url => signer_result env st cl = (descriptor env st cl url, None)
  end.
Proof.
  unfold signer_result.
  destruct (provider env (signingParam env st cl)) as [e|sess e|sess url] eqn:Hp.
  - by rewrite (signer_no_session env (entering st) _ e Hp).
  - by rewrite (signer_no_signature env (entering st) _ sess e Hp).
  - by rewrite (signer_signed env (entering st) _ sess url Hp).
Qed.


Lemma signer_error_cases env st cl err :
  snd (signer_result env st cl) = Some err ->
  (err = errorString "failed to create AWS session" /\
   exists e, provider env (signingParam env st cl) = NoSession e) \/
  (err = errorString "failed to sign request" /\
   exists sess e, provider env (signingParam env st cl) = NoSignature sess e).
Proof.
  pose proof (signer_result_cases env st cl) as H.
  destruct (provider env (signingParam env st cl)) as [e|sess e|sess url];
    rewrite H; cbn; intros [= <-]; eauto.
Qed.

(** ** Status codes and envelopes *)

(** C1: a request whose body decodes to a content length that is not
    positive or exceeds 1048576 gets status 400 and an envelope whose
    [success] field is false; the state is left as it was, so that the
    signer was not invoked. *)
Theorem invalid_content_length_rejected env st b cl :
  decodes_to b cl ->
  cl <= 0 \/ cl > 1048576 ->
  responds env st b 400 (Error "invalid content length" None) /\
  Error "invalid content length" None !! "success" = Some (anyBool false) /\
  snd (serve env st b) = st /\
  ~ signer_invoked st (snd (serve env st b)).
Proof.
  intros Hd Hr. apply out_of_range_spec in Hr.
  unfold responds. rewrite (serve_invalid_length env st b cl Hd Hr). cbn [fst snd].
  rewrite sent_status, sent_body.
  split; [split; reflexivity|]. split; [apply Error_success|].
  split; [reflexivity | apply not_invoked].
Qed.

Lemma invalid_content_length_rejected_witness :
  decodes_to (body_of 2000000) 2000000 /\
  (2000000 <= 0 \/ 2000000 > 1048576) /\
  responds signing_env st0 (body_of 2000000) 400 (Error "invalid content length" None) /\
  snd (serve signing_env st0 (body_of 2000000)) = st0.
Proof.
  assert (Hd : decodes_to (body_of 2000000) 2000000) by (vm_compute; reflexivity).
  assert (Hr : 2000000 <= 0 \/ 2000000 > 1048576) by lia.
  destruct (invalid_content_length_rejected signing_env st0 _ _ Hd Hr) as (H1 & _ & H3 & _).
  exact (conj Hd (conj Hr (conj H1 H3))).
Defined.

(** C3: a request whose body fails to decode gets status 400 and an
    envelope whose [success] field is false and whose [error] field is
    present and holds the message of the decode error, which is not empty. *)
Theorem undecodable_body_rejected env st b err :
  decode_fails b err ->
  responds env st b 400 (Error "invalid request body" (Some err)) /\
  Error "invalid request body" (Some err) !! "success" = Some (anyBool false) /\
  Error "invalid request body" (Some err) !! "error"
    = Some (anyString (json.Error_method err)) /\
  json.Error_method err <> "".
Proof.
  intros Hd. unfold responds. rewrite (serve_decode_error env st b err Hd). cbn [fst].
  rewrite sent_status, sent_body, Error_success, Error_error.
  split; [split; reflexivity|]. split; [reflexivity|].
  split; [reflexivity | by apply (decode_fails_worded b)].
Qed.

Lemma undecodable_body_rejected_witness :
  decode_fails "not json" (SyntaxError "o" "in literal null (expecting 'u')") /\
  responds signing_env st0 "not json" 400
    (Error "invalid request body" (Some (SyntaxError "o" "in literal null (expecting 'u')"))) /\
  json.Error_method (SyntaxError "o" "in literal null (expecting 'u')")
    = "invalid character 'o' in literal null (expecting 'u')".
Proof.
  assert (Hd : decode_fails "not json" (SyntaxError "o" "in literal null (expecting 'u')"))
    by (vm_compute; reflexivity).
  destruct (undecodable_body_rejected signing_env st0 _ _ Hd) as (H1 & _).
  split; [exact Hd|]. split; [exact H1|]. vm_compute. reflexivity.
Defined.

(** C10: the envelope of a request rejected for its content length has
    the keys [success] and [message] and no [error] key, whereas the
    envelope of a request whose body fails to decode has an [error] key;
    both get status 400. *)
Theorem error_key_only_for_decode_failure env st b_length cl b_body err :
  decodes_to b_length cl ->
  cl <= 0 \/ cl > 1048576 ->
  decode_fails b_body err ->
  (exists envelope,
     responds env st b_length 400 envelope /\
     dom envelope = ({[ "success"; "message" ]} : gset string) /\
     envelope !! "error" = None) /\
  (exists envelope,
     responds env st b_body 400 envelope /\
     "error" ∈ dom envelope /\
     envelope !! "error" = Some (anyString (json.Error_method err))).
Proof.
  intros Hd Hr Hf. apply out_of_range_spec in Hr. unfold responds. split.
  - exists (Error "invalid content length" None).
    rewrite (serve_invalid_length env st b_length cl Hd Hr). cbn [fst].
    rewrite sent_status, sent_body.
    split; [split; reflexivity|].
    split; [apply Error_keys_nil | by rewrite Error_error].
  - exists (Error "invalid request body" (Some err)).
    rewrite (serve_decode_error env st b_body err Hf). cbn [fst].
    rewrite sent_status, sent_body.
    split; [split; reflexivity|].
    split; [rewrite Error_keys_err; set_solver | by rewrite Error_error].
Qed.

Lemma error_key_only_for_decode_failure_witness :
  decodes_to (body_of 0) 0 /\
  (0 <= 0 \/ 0 > 1048576) /\
  decode_fails "not json" (SyntaxError "o" "in literal null (expecting 'u')") /\
  (exists envelope,
     responds signing_env st0 (body_of 0) 400 envelope /\
     dom envelope = ({[ "success"; "message" ]} : gset string) /\
     envelope !! "error" = None) /\
  (exists envelope,
     responds signing_env st0 "not json" 400 envelope /\
     "error" ∈ dom envelope /\
     envelope !! "error" = Some (anyString
       (json.Error_method (SyntaxError "o" "in literal null (expecting 'u')")))).
Proof.
  assert (Hd : decodes_to (body_of 0) 0) by (vm_compute; reflexivity).
  assert (Hr : 0 <= 0 \/ 0 > 1048576) by lia.
  assert (Hf : decode_fails "not json" (SyntaxError "o" "in literal null (expecting 'u')"))
    by (vm_compute; reflexivity).
  exact (conj Hd (conj Hr (conj Hf
           (error_key_only_for_decode_failure signing_env st0 _ _ _ _ Hd Hr Hf)))).
Defined.



(** C4: when the signer fails, because no session could be made or
    because the request could not be signed, the request gets status 500
    and an envelope whose [success] field is false and whose [error]
    field holds the message of the error the signer returned, which is not
    empty. *)
Theorem signer_failure_reported env st b cl :
  decodes_to b cl ->
  0 < cl <= 1048576 ->
  (forall sess url, provider env (signingParam env st cl) <> Signed sess url) ->
  exists err,
    snd (signer_result env st cl) = Some err /\
    responds env st b 500 (Error "failed to create AWS session" (Some err)) /\
    Error "failed to create AWS session" (Some err) !! "success" = Some (anyBool false) /\
    Error "failed to create AWS session" (Some err) !! "error"
      = Some (anyString (json.Error_method err)) /\
    json.Error_method err <> "" /\
    (err = errorString "failed to create AWS session" \/
     err = errorString "failed to sign request").
Proof.
  intros Hd Hr Hp. apply in_range_spec in Hr.
  pose proof (signer_result_cases env st cl) as Hc. unfold responds.
  destruct (provider env (signingParam env st cl)) as [e|sess e|sess url] eqn:Hq.
  - exists (errorString "failed to create AWS session").
    rewrite (serve_no_session env st b cl e Hd Hr Hq), Hc. cbn [fst snd].
    rewrite sent_status, sent_body, Error_success, Error_error.
    split; [reflexivity|]. split; [split; reflexivity|].
    split; [reflexivity|]. split; [reflexivity|].
    split; [intros H; discriminate H | by left].
  - exists (errorString "failed to sign request").
    rewrite (serve_no_signature env st b cl sess e Hd Hr Hq), Hc. cbn [fst snd].
    rewrite sent_status, sent_body, Error_success, Error_error.
    split; [reflexivity|]. split; [split; reflexivity|].
    split; [reflexivity|]. split; [reflexivity|].
    split; [intros H; discriminate H | by right].
  - by destruct (Hp sess url).
Qed.

Lemma signer_failure_reported_witness :
  decodes_to (body_of 5) 5 /\
  0 < 5 <= 1048576 /\
  (forall sess url,
     provider unsigned_env (signingParam unsigned_env st0 5) <> Signed sess url) /\
  exists err,
    responds unsigned_env st0 (body_of 5) 500
      (Error "failed to create AWS session" (Some err)) /\
    json.Error_method err <> "".
Proof.
  assert (Hd : decodes_to (body_of 5) 5) by (vm_compute; reflexivity).
  assert (Hr : 0 < 5 <= 1048576) by lia.
  assert (Hp : forall sess url,
             provider unsigned_env (signingParam unsigned_env st0 5) <> Signed sess url)
    by (intros sess url; vm_compute; discriminate).
  destruct (signer_failure_reported unsigned_env st0 _ _ Hd Hr Hp)
    as (err & _ & H2 & _ & _ & H5 & _).
  split; [exact Hd|]. split; [exact Hr|]. split; [exact Hp|].
  exists err. exact (conj H2 H5).
Defined.

(** C6: the [host] of the descriptor of a successful request is the
    configured bucket name followed by ".s3.amazonaws.com"; it is the same
    for every other successful request in the same environment, whatever
    its body. *)
Theorem host_from_bucket env st b d :
  succeeds env st b d ->
  GeneratePresignedURLResponse.Host d = getenv env "AWS_BUCKET" +:+ ".s3.amazonaws.com" /\
  forall st' b' d',
    succeeds env st' b' d' ->
    GeneratePresignedURLResponse.Host d' = GeneratePresignedURLResponse.Host d.
Proof.
  intros Hs. destruct (succeeds_inv env st b d Hs) as (cl & sess & url & _ & _ & _ & ->).
  split; [apply descriptor_Host|].
  intros st' b' d' Hs'.
  destruct (succeeds_inv env st' b' d' Hs') as (cl' & sess' & url' & _ & _ & _ & ->).
  by rewrite !descriptor_Host.
Qed.

Lemma host_from_bucket_witness :
  succeeds signing_env st0 (body_of 5) descriptor5 /\
  GeneratePresignedURLResponse.Host descriptor5 = "uploads.s3.amazonaws.com".
Proof.
  assert (Hs : succeeds signing_env st0 (body_of 5) descriptor5) by by_evaluation.
  split; [exact Hs|].
  exact (proj1 (host_from_bucket signing_env st0 _ _ Hs)).
Defined.

(** ** Expiration *)

Lemma Add_ten_minutes ns l :
  time.UnixNano (time.Add (time.at_nanos ns l) (10 * time.Minute))
  = ns + 10 * 60 * 1000000000.
Proof.
  unfold time.Add, time.at_nanos, time.UnixNano.
  cbn [time.sec time.nsec time.loc].
  change (Z.quot (10 * time.Minute) 1000000000) with 600.
  change (Z.rem (10 * time.Minute) 1000000000) with 0.
  pose proof (Z.mod_pos_bound ns 1000000000 ltac:(lia)) as Hm.
  pose proof (Z.div_mod ns 1000000000 ltac:(lia)) as Hq.
  destruct (Z.leb_spec 1000000000 (ns mod 1000000000 + 0)); [lia|].
  destruct (Z.ltb_spec (ns mod 1000000000 + 0) 0); [lia|].
  cbn [time.sec time.nsec]. lia.
Qed.

(** C5: the [expiration_time] of the descriptor of a successful request
    is the reading of the wall clock taken while the request is processed
    (in the signer, once the URL is signed) plus exactly 10 minutes; so it
    is within any tolerance, such as 2 seconds, of an instant plus 10
    minutes whenever that instant is within the tolerance of the reading. *)
Theorem expiration_ten_minutes env st b d :
  succeeds env st b d ->
  let processed := wallclock env (S (reads st)) in
  GeneratePresignedURLResponse.ExpirationTime d
    = time.Add (time.at_nanos processed (time_Local env)) (10 * time.Minute) /\
  time.UnixNano (GeneratePresignedURLResponse.ExpirationTime d)
    = processed + 10 * 60 * 1000000000 /\
  forall t tolerance,
    Z.abs (processed - t) <= tolerance ->
    Z.abs (time.UnixNano (GeneratePresignedURLResponse.ExpirationTime d)
           - (t + 10 * 60 * 1000000000)) <= tolerance.
Proof.
  intros Hs processed.
  destruct (succeeds_inv env st b d Hs) as (cl & sess & url & _ & _ & _ & ->).
  rewrite descriptor_ExpirationTime. fold processed. rewrite Add_ten_minutes.
  split; [reflexivity|]. split; [reflexivity|].
  intros t tolerance H. lia.
Qed.

Lemma expiration_ten_minutes_witness :
  succeeds signing_env st0 (body_of 5) descriptor5 /\
  time.UnixNano (GeneratePresignedURLResponse.ExpirationTime descriptor5)
    = wallclock signing_env 1 + 10 * 60 * 1000000000.
Proof.
  assert (Hs : succeeds signing_env st0 (body_of 5) descriptor5) by by_evaluation.
  split; [exact Hs|].
  exact (proj1 (proj2 (expiration_ten_minutes signing_env st0 _ _ Hs))).
Defined.

(** ** File names *)

Lemma appendInt_DD x : 0 <= x <= 99 -> time.appendInt x 2 = DD x.
Proof.
  intros Hx.
  assert (H : forallb (fun n => String.eqb (time.appendInt (Z.of_nat n) 2) (DD (Z.of_nat n)))
                (seq 0 (Z.to_nat 100)) = true) by (vm_compute; reflexivity).
  rewrite forallb_forall in H. specialize (H (Z.to_nat x)).
  rewrite Z2Nat.id in H by lia. apply String.eqb_eq, H, in_seq. lia.
Qed.

Lemma appendInt_DDDD x : 0 <= x <= 9999 -> time.appendInt x 4 = DDDD x.
Proof.
  intros Hx.
  assert (H : forallb (fun n => String.eqb (time.appendInt (Z.of_nat n) 4) (DDDD (Z.of_nat n)))
                (seq 0 (Z.to_nat 10000)) = true) by (vm_compute; reflexivity).
  rewrite forallb_forall in H. specialize (H (Z.to_nat x)).
  rewrite Z2Nat.id in H by lia. apply String.eqb_eq, H, in_seq. lia.
Qed.

Section Calendar.
Local Ltac Zify.zify_post_hook ::= Z.to_euclidean_division_equations.

Lemma civil_bounds days :
  1 <= snd (fst (time.civil days)) <= 12 /\ 1 <= snd (time.civil days) <= 31.
Proof.
  unfold time.civil. cbv zeta. cbn [fst snd].
  set (doe := days + 719468 - (days + 719468) / 146097 * 146097).
  assert (Hdoe : 0 <= doe <= 146096) by (subst doe; lia).
  clearbody doe.
  set (yoe := (doe - doe / 1460 + doe / 36524 - doe / 146096) / 365).
  set (doy := doe - (365 * yoe + yoe / 4 - yoe / 100)).
  assert (Hdoy : 0 <= doy <= 365) by (subst doy yoe; lia).
  clearbody doy. clear yoe.
  set (mp := (5 * doy + 2) / 153).
  assert (Hmp : 0 <= mp <= 11) by (subst mp; lia).
  set (dd := doy - (153 * mp + 2) / 5 + 1).
  assert (Hd : 1 <= dd <= 31) by (subst dd mp; lia).
  clearbody dd mp.
  destruct (Z.ltb_spec mp 10); lia.
Qed.

Lemma clock_bounds t :
  0 <= time.Hour t <= 23 /\ 0 <= time.Minute_of t <= 59 /\ 0 <= time.Second_of t <= 59.
Proof. unfold time.Hour, time.Minute_of, time.Second_of. lia. Qed.

End Calendar.

Lemma Format_same_second t1 t2 layout :
  time.sec t1 = time.sec t2 -> time.loc t1 = time.loc t2 ->
  time.Format t1 layout = time.Format t2 layout.
Proof.
  intros Hs Hl. unfold time.Format.
  induction (time.chunks 0 layout) as [|ch chs IH]; [reflexivity|].
  cbn [fold_right]. rewrite IH. f_equal.
  destruct ch; cbn [time.appendChunk]; try reflexivity;
    unfold time.Year, time.Month, time.Day, time.Hour, time.Minute_of, time.Second_of,
      time.localSec; rewrite Hs, Hl; reflexivity.
Qed.

Lemma Format_stamp t :
  0 <= time.Year t <= 9999 ->
  time.Format t "2006-01-02-15-04-05" = stamp t.
Proof.
  intros Hy. unfold time.Format, stamp.
  change (time.chunks 0 "2006-01-02-15-04-05")
    with [ time.stdLongYear; time.literal "-"; time.stdZeroMonth; time.literal "-";
           time.stdZeroDay; time.literal "-"; time.stdHour; time.literal "-";
           time.stdZeroMinute; time.literal "-"; time.stdZeroSecond ].
  cbn [fold_right time.appendChunk].
  destruct (civil_bounds (time.localSec t / 86400)) as [Hm Hd].
  destruct (clock_bounds t) as (Hh & Hmi & Hse).
  rewrite (appendInt_DDDD (time.Year t)) by exact Hy.
  rewrite (appendInt_DD (time.Month t)) by (unfold time.Month; lia).
  rewrite (appendInt_DD (time.Day t)) by (unfold time.Day; lia).
  rewrite (appendInt_DD (time.Hour t)) by lia.
  rewrite (appendInt_DD (time.Minute_of t)) by lia.
  rewrite (appendInt_DD (time.Second_of t)) by lia.
  rewrite append_empty. reflexivity.
Qed.

(** C7: the [file_name] of a successful request is made from the wall
    clock alone: it is the reading taken when the name is generated,
    truncated to the second and formatted, followed by ".png"; for years
    0 to 9999 this is the text YYYY-MM-DD-HH-MM-SS in decimal digits.
    Nothing of the request enters it, so two successful requests whose
    names are generated within the same second, in the same time zone, get
    the same name whatever their bodies and environments. *)
Theorem file_name_from_clock env st b d :
  succeeds env st b d ->
  let t := truncated (wallclock env (reads st)) (time_Local env) in
  GeneratePresignedURLResponse.FileName d
    = time.Format t "2006-01-02-15-04-05" +:+ ".png" /\
  (0 <= time.Year t <= 9999 ->
   GeneratePresignedURLResponse.FileName d = stamp t +:+ ".png") /\
  forall env' st' b' d',
    succeeds env' st' b' d' ->
    time_Local env' = time_Local env ->
    wallclock env' (reads st') / 1000000000 = wallclock env (reads st) / 1000000000 ->
    GeneratePresignedURLResponse.FileName d' = GeneratePresignedURLResponse.FileName d.
Proof.
  intros Hs t.
  destruct (succeeds_inv env st b d Hs) as (cl & sess & url & _ & _ & _ & ->).
  assert (Hname : forall e s c u,
            GeneratePresignedURLResponse.FileName (descriptor e s c u)
            = time.Format (truncated (wallclock e (reads s)) (time_Local e))
                "2006-01-02-15-04-05" +:+ ".png").
  { intros e s c u. rewrite descriptor_FileName.
    apply (f_equal (fun name => name +:+ ".png")).
    apply Format_same_second; reflexivity. }
  rewrite Hname. fold t. split; [reflexivity|]. split.
  - intros Hy. by rewrite (Format_stamp t Hy).
  - intros env' st' b' d' Hs' Hl Hw.
    destruct (succeeds_inv env' st' b' d' Hs') as (cl' & sess' & url' & _ & _ & _ & ->).
    rewrite Hname. apply (f_equal (fun name => name +:+ ".png")).
    apply Format_same_second; [exact Hw | exact Hl].
Qed.

Lemma file_name_from_clock_witness :
  succeeds signing_env st0 (body_of 5) descriptor5 /\
  succeeds signing_env st2 (body_of 7) descriptor7 /\
  wallclock signing_env (reads st0) <> wallclock signing_env (reads st2) /\
  GeneratePresignedURLResponse.FileName descriptor5
    = stamp (truncated (wallclock signing_env (reads st0)) utc) +:+ ".png" /\
  GeneratePresignedURLResponse.FileName descriptor7
    = GeneratePresignedURLResponse.FileName descriptor5.
Proof.
  assert (H5 : succeeds signing_env st0 (body_of 5) descriptor5) by by_evaluation.
  assert (H7 : succeeds signing_env st2 (body_of 7) descriptor7) by by_evaluation.
  destruct (file_name_from_clock signing_env st0 _ _ H5) as (_ & Hstamp & Hsame).
  split; [exact H5|]. split; [exact H7|].
  split; [vm_compute; discriminate|].
  split.
  - apply Hstamp. vm_compute. split; discriminate.
  - apply (Hsame signing_env st2 _ _ H7); vm_compute; reflexivity.
Defined.

(** ** Usage hints *)

(** The hint on expiry applies [%d] to the duration itself, a count of
    nanoseconds. *)
Example expiry_hint_of_ten_minutes :
  fmt.Sprintf "The URL will expire after %d minutes" [fmt.int (10 * time.Minute)]
  = "The URL will expire after 600000000000 minutes".
Proof. vm_compute. reflexivity. Qed.

(** C8, as stated, fails: the details are not one fixed list.  The bodies
    [{"content_length": 5}] and [{"content_length": 6}] both succeed,
    with different details, and the third hint of the first states 5
    bytes, not 1048576. *)
Lemma details_not_fixed :
  succeeds signing_env st0 (body_of 5) descriptor5 /\
  succeeds signing_env st0 (body_of 6) descriptor6 /\
  GeneratePresignedURLResponse.Details descriptor5
    <> GeneratePresignedURLResponse.Details descriptor6 /\
  nth 2 (GeneratePresignedURLResponse.Details descriptor5) ""
    <> "The maximum upload size is 1048576 bytes".
Proof.
  split; [by_evaluation|]. split; [by_evaluation|].
  split; vm_compute; discriminate.
Qed.

(** C8, amended: the details of a successful request are three hints: the
    fixed hint on use, a hint of the form "The URL will expire after N
    minutes", and the hint that the maximum upload size is the request's
    own content length, in bytes; hence the details are the same for all
    successful requests of the same content length. *)
Theorem details_follow_content_length env st b d cl :
  succeeds env st b d ->
  decodes_to b cl ->
  (exists N,
     GeneratePresignedURLResponse.Details d =
       [ "Use the pre-signed URL to upload the file";
         "The URL will expire after " +:+ N +:+ " minutes";
         "The maximum upload size is " +:+ strconv.Itoa cl +:+ " bytes" ]) /\
  forall env' st' b' d',
    succeeds env' st' b' d' ->
    decodes_to b' cl ->
    GeneratePresignedURLResponse.Details d' = GeneratePresignedURLResponse.Details d.
Proof.
  intros Hs Hd.
  destruct (succeeds_inv env st b d Hs) as (cl0 & sess & url & Hd0 & _ & _ & ->).
  unfold decodes_to in Hd, Hd0. rewrite Hd in Hd0. injection Hd0 as <-.
  split.
  - exists (strconv.Itoa (10 * time.Minute)). apply descriptor_Details.
  - intros env' st' b' d' Hs' Hd'.
    destruct (succeeds_inv env' st' b' d' Hs') as (cl1 & sess' & url' & Hd1 & _ & _ & ->).
    unfold decodes_to in Hd', Hd1. rewrite Hd' in Hd1. injection Hd1 as <-.
    by rewrite !descriptor_Details.
Qed.

Lemma details_follow_content_length_witness :
  succeeds signing_env st0 (body_of 5) descriptor5 /\
  decodes_to (body_of 5) 5 /\
  nth 2 (GeneratePresignedURLResponse.Details descriptor5) ""
    = "The maximum upload size is 5 bytes".
Proof.
  assert (Hs : succeeds signing_env st0 (body_of 5) descriptor5) by by_evaluation.
  assert (Hd : decodes_to (body_of 5) 5) by (vm_compute; reflexivity).
  destruct (details_follow_content_length signing_env st0 _ _ _ Hs Hd) as ((N & HN) & _).
  split; [exact Hs|]. split; [exact Hd|].
  rewrite HN. vm_compute. reflexivity.
Defined.

(** ** What of the body reaches the response *)

(** The handler sees of the body only what [Decode] makes of it. *)
Lemma serve_ext env st b1 b2 :
  Decode b1 zeroBody = Decode b2 zeroBody -> serve env st b1 = serve env st b2.
Proof.
  intros H. unfold serve, GetUploadURLHandler. cbn [http.Body]. fold zeroBody.
  rewrite H. reflexivity.
Qed.

Lemma object_skips_extra sn ms : forall cur saved,
  json.object sn "content_length" (List.filter content_length_member ms) cur saved
  = json.object sn "content_length" ms cur saved.
Proof.
  induction ms as [|[key v] ms IH]; intros cur saved; [reflexivity|].
  cbn [List.filter json.object]. unfold content_length_member at 1. cbn [fst].
  destruct (json.field_matches "content_length" key) eqn:Hk; [|apply IH].
  cbn [json.object]. rewrite Hk.
  destruct (json.store_int64 sn "content_length" v cur) as [cur' e]. apply IH.
Qed.

Lemma Decode_skips_extra b b_extra ms :
  json.readValue b_extra = inr (json.Object ms) ->
  json.readValue b = inr (json.Object (List.filter content_length_member ms)) ->
  Decode b_extra zeroBody = Decode b zeroBody.
Proof.
  intros He Hb. unfold Decode, json.Decode. rewrite He, Hb.
  cbn [json.unmarshal]. by rewrite object_skips_extra.
Qed.

(** The member spelled [Content_Length] is the field itself, not an extra
    one: it is stored, and the last such member wins. *)
Example content_length_in_any_case :
  decodes_to ("{" +:+ quoted "content_length" +:+ ": 5, "
                +:+ quoted "Content_Length" +:+ ": 2000000}") 2000000.
Proof. vm_compute. reflexivity. Qed.

(** C9, as stated, fails: a member besides [content_length] can change
    the outcome.  The body [{"content_length": 5}] succeeds; the same
    body with the further member ["Content_Length": 2000000] decodes
    without error, to 2000000, and is rejected with status 400: the
    decoder takes a key that is [content_length] up to the case of its
    letters for the field itself. *)
Lemma extra_member_changes_outcome :
  json.readValue body_alone = inr (json.Object [ ("content_length", json.Number "5") ]) /\
  json.readValue body_recased
    = inr (json.Object [ ("content_length", json.Number "5");
                         ("Content_Length", json.Number "2000000") ]) /\
  decodes_to body_alone 5 /\
  decodes_to body_recased 2000000 /\
  succeeds signing_env st0 body_alone descriptor5 /\
  responds signing_env st0 body_recased 400 (Error "invalid content length" None) /\
  serve signing_env st0 body_recased <> serve signing_env st0 body_alone.
Proof.
  assert (Hs : succeeds signing_env st0 body_alone descriptor5) by by_evaluation.
  assert (Hr : responds signing_env st0 body_recased 400
                 (Error "invalid content length" None)) by by_evaluation.
  split; [vm_compute; reflexivity|]. split; [vm_compute; reflexivity|].
  split; [vm_compute; reflexivity|]. split; [vm_compute; reflexivity|].
  split; [exact Hs|]. split; [exact Hr|].
  intros E. destruct Hs as [Hs _]. destruct Hr as [Hr _].
  rewrite E, Hs in Hr. discriminate Hr.
Qed.

(** C9, amended: the response, and the state the request leaves, depend
    on the body only through the decoded content length: two bodies that
    decode to the same content length are served alike, and a body whose
    object carries members whose keys are not [content_length], exactly
    or up to the case of ASCII letters, is served as the body without
    those members. *)
Theorem response_depends_on_content_length env st b b' cl b_extra ms :
  decodes_to b cl ->
  decodes_to b' cl ->
  json.readValue b_extra = inr (json.Object ms) ->
  json.readValue b = inr (json.Object (List.filter content_length_member ms)) ->
  serve env st b' = serve env st b /\
  serve env st b_extra = serve env st b.
Proof.
  intros Hd Hd' He Hb. split; apply serve_ext.
  - unfold decodes_to in Hd, Hd'. by rewrite Hd, Hd'.
  - by apply (Decode_skips_extra b b_extra ms).
Qed.

Lemma response_depends_on_content_length_witness :
  decodes_to body_alone 5 /\
  decodes_to body_respelled 5 /\
  json.readValue body_extra
    = inr (json.Object [ ("content_length", json.Number "5");
                         ("file_name", json.Str "../../etc/passwd");
                         ("tags", json.Array [json.Number "1"; json.Object []]) ]) /\
  json.readValue body_alone = inr (json.Object [ ("content_length", json.Number "5") ]) /\
  serve signing_env st0 body_respelled = serve signing_env st0 body_alone /\
  serve signing_env st0 body_extra = serve signing_env st0 body_alone.
Proof.
  assert (Hd : decodes_to body_alone 5) by (vm_compute; reflexivity).
  assert (Hd' : decodes_to body_respelled 5) by (vm_compute; reflexivity).
  assert (He : json.readValue body_extra
               = inr (json.Object [ ("content_length", json.Number "5");
                                    ("file_name", json.Str "../../etc/passwd");
                                    ("tags", json.Array [json.Number "1"; json.Object []]) ]))
    by (vm_compute; reflexivity).
  assert (Hb : json.readValue body_alone
               = inr (json.Object (List.filter content_length_member
                        [ ("content_length", json.Number "5");
                          ("file_name", json.Str "../../etc/passwd");
                          ("tags", json.Array [json.Number "1"; json.Object []]) ])))
    by (vm_compute; reflexivity).
  split; [exact Hd|]. split; [exact Hd'|]. split; [exact He|].
  split; [vm_compute; reflexivity|].
  exact (response_depends_on_content_length signing_env st0 _ _ _ _ _ Hd Hd' He Hb).
Defined.

(** * Further properties *)

(** ** The handler on any writer *)

(** Whatever the writer, the handler ends by one call of [SendResponse]
    on it. *)
Lemma handle_factors env st b :
  exists envelope status st',
    forall w, handle env st w b = (SendResponse w envelope status, st').
Proof.
  unfold handle, GetUploadURLHandler. cbn [http.Body]. fold zeroBody.
  destruct (Decode b zeroBody) as [[cl] [err|]].
  - eexists _, _, _. intros w. reflexivity.
  - cbn [GeneratePresignedURLBody.ContentLength].
    destruct ((cl <=? 0) || (cl >? MAX_UPLOAD_SIZE)).
    + eexists _, _, _. intros w. reflexivity.
    + unfold bind at 1. unfold time_Now at 1. unfold bind at 1. unfold os_Getenv at 1.
      unfold bind at 1. cbv beta iota.
      match goal with
      | |- context [GeneratePresignedURL ?p env ?s] =>
          destruct (GeneratePresignedURL p env s) as [[res [e|]] st']
      end; eexists _, _, _; intros w; reflexivity.
Qed.

Lemma sent_inv (e1 e2 : gmap string any) (s1 s2 : Z) :
  SendResponse http.fresh e1 s1 = SendResponse http.fresh e2 s2 -> e1 = e2 /\ s1 = s2.
Proof.
  intros H. split.
  - apply (f_equal http.Encoded) in H. rewrite !sent_body in H. by apply only_one.
  - apply (f_equal http.Status) in H. rewrite !sent_status in H. by apply some_inj.
Qed.

Lemma pair_inv {A B} (a a' : A) (b b' : B) : (a, b) = (a', b') -> a = a' /\ b = b'.
Proof. intros H. injection H. auto. Qed.

(** The state the signer leaves, answer by answer. *)
Lemma signer_state env st param :
  snd (GeneratePresignedURL param env st) =
    match provider env param with
    | NoSession _ =>
        {| reads := reads st; calls := calls st ++ [CallNewSession (sessionConfig env)] |}
    | NoSignature sess _ =>
        {| reads := reads st;
           calls := calls st ++ [CallNewSession (sessionConfig env); presignCall sess param] |}
    | Signed sess _ =>
        {| reads := S (reads st);
           calls := calls st ++ [CallNewSession (sessionConfig env); presignCall sess param] |}
    end.
Proof.
  destruct (provider env param) as [e|sess e|sess url] eqn:Hp.
  - by rewrite (signer_no_session env st param e Hp).
  - rewrite (signer_no_signature env st param sess e Hp). cbn [snd].
    by rewrite <- app_assoc.
  - rewrite (signer_signed env st param sess url Hp). cbn [snd].
    by rewrite <- app_assoc.
Qed.

(** Every request takes one of the five paths, on every writer. *)
Lemma handle_path env st b :
  exists status envelope st',
    path env st b status envelope st' /\
    forall w, handle env st w b = (SendResponse w envelope status, st').
Proof.
  destruct (handle_factors env st b) as (envelope & status & st' & Hw).
  exists status, envelope, st'. split; [|exact Hw].
  specialize (Hw http.fresh). change (handle env st http.fresh b) with (serve env st b) in Hw.
  destruct (Decode b zeroBody) as [[cl] [err|]] eqn:Hd.
  - assert (Hf : decode_fails b err) by (unfold decode_fails; by rewrite Hd).
    rewrite (serve_decode_error env st b err Hf) in Hw.
    apply pair_inv in Hw as [Hs <-]. apply sent_inv in Hs as [<- <-].
    by apply BadBody.
  - destruct (in_range cl) eqn:Hr.
    + pose proof (signer_state env (entering st) (signingParam env st cl)) as Hst.
      destruct (provider env (signingParam env st cl)) as [e|sess e|sess url] eqn:Hp.
      * rewrite (serve_no_session env st b cl e Hd Hr Hp), Hst in Hw.
        apply pair_inv in Hw as [Hs <-]. apply sent_inv in Hs as [<- <-].
        by apply (SessionFailed env st b cl e).
      * rewrite (serve_no_signature env st b cl sess e Hd Hr Hp), Hst in Hw.
        apply pair_inv in Hw as [Hs <-]. apply sent_inv in Hs as [<- <-].
        by apply (SigningFailed env st b cl sess e).
      * rewrite (serve_signed env st b cl sess url Hd Hr Hp), Hst in Hw.
        apply pair_inv in Hw as [Hs <-]. apply sent_inv in Hs as [<- <-].
        by apply (Granted env st b cl sess url).
    + rewrite (serve_invalid_length env st b cl Hd Hr) in Hw.
      apply pair_inv in Hw as [Hs <-]. apply sent_inv in Hs as [<- <-].
      by apply (BadLength env st b cl).
Qed.

Lemma serve_path env st b :
  exists status envelope st',
    path env st b status envelope st' /\
    serve env st b = (SendResponse http.fresh envelope status, st').
Proof.
  destruct (handle_path env st b) as (status & envelope & st' & Hp & Hw).
  exists status, envelope, st'. split; [exact Hp | apply (Hw http.fresh)].
Qed.

(** A path fixes what [serve] returns. *)
Lemma path_serve env st b status envelope st' :
  path env st b status envelope st' ->
  serve env st b = (SendResponse http.fresh envelope status, st').
Proof.
  intros H. destruct H as [err Hf|cl Hd Hr|cl e Hd Hr Hp|cl sess e Hd Hr Hp|cl sess url Hd Hr Hp].
  - apply (serve_decode_error env st b err Hf).
  - apply (serve_invalid_length env st b cl Hd Hr).
  - rewrite (serve_no_session env st b cl e Hd Hr Hp), signer_state, Hp. reflexivity.
  - rewrite (serve_no_signature env st b cl sess e Hd Hr Hp), signer_state, Hp. reflexivity.
  - rewrite (serve_signed env st b cl sess url Hd Hr Hp), signer_state, Hp. reflexivity.
Qed.

Lemma path_status env st b status envelope st' :
  path env st b status envelope st' -> status = 200 \/ status = 400 \/ status = 500.
Proof. intros []; auto. Qed.

Lemma SendResponse_header (w : http.ResponseWriter (gmap string any)) envelope status :
  http.Header (SendResponse w envelope status)
  = <["Content-Type" := "application/json"]> (http.Header w).
Proof. reflexivity. Qed.

(** X1: on a writer that has sent no status yet, the handler answers every
    request once: it sets a status among 200, 400 and 500, hands one
    envelope to the encoder after what was encoded before, sets the
    content type to JSON and leaves the other headers alone; envelope and
    status are those of a fresh writer. *)
Theorem handler_answers_once env st w b :
  http.Status w = None ->
  exists status envelope,
    (status = 200 \/ status = 400 \/ status = 500) /\
    http.Status (fst (handle env st w b)) = Some status /\
    http.Encoded (fst (handle env st w b)) = http.Encoded w ++ [envelope] /\
    http.Header (fst (handle env st w b)) !! "Content-Type" = Some "application/json" /\
    (forall k, k <> "Content-Type" ->
       http.Header (fst (handle env st w b)) !! k = http.Header w !! k) /\
    responds env st b status envelope /\
    snd (handle env st w b) = snd (serve env st b).
Proof.
  intros Hnone.
  destruct (handle_path env st b) as (status & envelope & st' & Hp & Hw).
  exists status, envelope.
  split; [apply (path_status _ _ _ _ _ _ Hp)|].
  unfold responds. rewrite (path_serve _ _ _ _ _ _ Hp), Hw. cbn [fst snd].
  rewrite sent_status, sent_body, SendResponse_header.
  split; [cbn; by rewrite Hnone|]. split; [reflexivity|].
  split; [apply lookup_insert_eq|].
  split; [intros k Hk; by apply lookup_insert_ne|].
  split; [split; reflexivity | reflexivity].
Qed.

Lemma handler_answers_once_witness :
  http.Status traced_writer = None /\
  http.Header (fst (handle signing_env st0 traced_writer (body_of 5))) !! "X-Request-Id"
    = Some "7" /\
  http.Header (fst (handle signing_env st0 traced_writer (body_of 5))) !! "Content-Type"
    = Some "application/json".
Proof.
  assert (Hn : http.Status traced_writer = None) by reflexivity.
  destruct (handler_answers_once signing_env st0 traced_writer (body_of 5) Hn)
    as (status & envelope & _ & _ & _ & Hct & Hother & _).
  split; [exact Hn|]. split; [|exact Hct].
  rewrite Hother by discriminate. vm_compute. reflexivity.
Defined.

Lemma Error_data message err : Error message err !! "data" = None.
Proof. unfold Error. destruct err; by simplify_map_eq. Qed.

Lemma Success_error message data : Success message data !! "error" = None.
Proof. unfold Success. by simplify_map_eq. Qed.

(** X2: the status and the envelope agree on every request: with status
    200 the envelope has [success] true and exactly the keys [success],
    [message] and [data]; with status 400 or 500 it has [success] false
    and no [data], and with status 500 it has an [error]. *)
Theorem envelope_agrees_with_status env st b :
  exists status envelope,
    responds env st b status envelope /\
    ((status = 200 /\
      envelope !! "success" = Some (anyBool true) /\
      dom envelope = ({[ "success"; "message"; "data" ]} : gset string)) \/
     ((status = 400 \/ status = 500) /\
      envelope !! "success" = Some (anyBool false) /\
      envelope !! "data" = None /\
      (status = 500 -> is_Some (envelope !! "error")))).
Proof.
  destruct (serve_path env st b) as (status & envelope & st' & Hp & Hs).
  exists status, envelope. unfold responds. rewrite Hs. cbn [fst].
  rewrite sent_status, sent_body. split; [split; reflexivity|].
  destruct Hp.
  - right. rewrite Error_success, Error_data. repeat split; auto; discriminate.
  - right. rewrite Error_success, Error_data. repeat split; auto; discriminate.
  - right. rewrite Error_success, Error_data, Error_error. repeat split; auto; by eexists.
  - right. rewrite Error_success, Error_data, Error_error. repeat split; auto; by eexists.
  - left. rewrite Success_success, Success_keys. auto.
Qed.

(** X3: what a request does to the state goes with its status.  With
    400 the state is untouched: no clock reading, no SDK call.  With 500
    the clock was read once and the SDK was asked for a session, and to
    sign only if it gave one.  With 200 the clock was read twice and the
    SDK was asked for a session and then, once, to sign for 10 minutes. *)
Theorem effects_go_with_status env st b :
  let st' := snd (serve env st b) in
  let status := http.Status (fst (serve env st b)) in
  (status = Some 400 /\ st' = st) \/
  (status = Some 500 /\ reads st' = S (reads st) /\
   (calls st' = calls st ++ [CallNewSession (sessionConfig env)] \/
    exists sess input,
      sdk_NewSession env (sessionConfig env) = inr sess /\
      calls st' = calls st ++ [CallNewSession (sessionConfig env);
                               CallPresign sess input (10 * time.Minute)])) \/
  (status = Some 200 /\ reads st' = S (S (reads st)) /\
   exists sess input,
     sdk_NewSession env (sessionConfig env) = inr sess /\
     calls st' = calls st ++ [CallNewSession (sessionConfig env);
                              CallPresign sess input (10 * time.Minute)]).
Proof.
  destruct (serve_path env st b) as (status & envelope & st' & Hp & Hs).
  cbv zeta. rewrite Hs. cbn [fst snd]. rewrite sent_status.
  assert (Hsess : forall cl sess,
            (exists e, provider env (signingParam env st cl) = NoSignature sess e) \/
            (exists url, provider env (signingParam env st cl) = Signed sess url) ->
            sdk_NewSession env (sessionConfig env) = inr sess).
  { intros cl sess H. unfold provider in H. fold (sessionConfig env) in H.
    destruct (sdk_NewSession env (sessionConfig env)) as [e0|sess0].
    - destruct H as [[e H]|[url H]]; discriminate.
    - destruct (sdk_Presign env sess0 _ _);
        destruct H as [[e1 H]|[url1 H]]; try discriminate; by injection H as ->. }
  destruct Hp as [err Hf|cl Hd Hr|cl e Hd Hr Hp|cl sess e Hd Hr Hp|cl sess url Hd Hr Hp].
  - left. auto.
  - left. auto.
  - right. left. cbn [reads calls]. auto.
  - right. left. cbn [reads calls]. split; [reflexivity|]. split; [reflexivity|].
    right. exists sess, (putObjectInput (signingParam env st cl)).
    split; [apply (Hsess cl); eauto | reflexivity].
  - right. right. cbn [reads calls]. split; [reflexivity|]. split; [reflexivity|].
    exists sess, (putObjectInput (signingParam env st cl)).
    split; [apply (Hsess cl); eauto | reflexivity].
Qed.

(** ** What is signed *)

Lemma provider_Signed env param sess url :
  provider env param = Signed sess url ->
  sdk_NewSession env (sessionConfig env) = inr sess /\
  sdk_Presign env sess (putObjectInput param) (GeneratePresignedURLParam.Timout param)
    = inr url.
Proof.
  unfold provider. fold (sessionConfig env).
  destruct (sdk_NewSession env (sessionConfig env)) as [e|sess0]; [discriminate|].
  destruct (sdk_Presign env sess0 _ _) as [e|url0] eqn:Hs; [discriminate|].
  intros H. injection H as -> ->. auto.
Qed.

(** X4: what a successful request returns is what was signed.  The SDK
    was asked, in a session for the region of [AWS_REGION], to sign a PUT
    of the object whose key is the returned [file_name], in the bucket of
    [AWS_BUCKET], with content type image/png and the content length of
    the request, for 10 minutes; the returned URL is the SDK's answer to
    that call and the returned method is PUT. *)
Theorem descriptor_is_what_was_signed env st b d cl :
  succeeds env st b d ->
  decodes_to b cl ->
  let input :=
    {| s3.Bucket := getenv env "AWS_BUCKET";
       s3.Key := GeneratePresignedURLResponse.FileName d;
       s3.ContentType := "image/png";
       s3.ContentLength := cl |} in
  exists sess,
    sdk_NewSession env {| aws.Region := getenv env "AWS_REGION" |} = inr sess /\
    sdk_Presign env sess input (10 * time.Minute)
      = inr (GeneratePresignedURLResponse.PreAssignedURL d) /\
    calls (snd (serve env st b))
      = calls st ++ [ CallNewSession {| aws.Region := getenv env "AWS_REGION" |};
                      CallPresign sess input (10 * time.Minute) ] /\
    GeneratePresignedURLResponse.Method d = "PUT".
Proof.
  intros Hs Hd input.
  destruct (succeeds_inv env st b d Hs) as (cl0 & sess & url & Hd0 & Hr & Hp & ->).
  unfold decodes_to in Hd, Hd0. rewrite Hd in Hd0. injection Hd0 as <-.
  destruct (provider_Signed _ _ _ _ Hp) as [Hn Hsig].
  exists sess. split; [exact Hn|]. split; [exact Hsig|]. split; [|reflexivity].
  rewrite (path_serve env st b _ _ _ (Granted env st b cl sess url Hd Hr Hp)).
  subst input. cbn [snd calls].
  unfold presignCall, putObjectInput, descriptor, signed_response, signingParam, sessionConfig.
  cbn [GeneratePresignedURLResponse.FileName GeneratePresignedURLParam.FileName
       GeneratePresignedURLParam.Bucket GeneratePresignedURLParam.ContentType
       GeneratePresignedURLParam.ContentLength GeneratePresignedURLParam.Timout].
  reflexivity.
Qed.

Lemma descriptor_is_what_was_signed_witness :
  succeeds signing_env st0 (body_of 5) descriptor5 /\
  decodes_to (body_of 5) 5 /\
  exists sess,
    calls (snd (serve signing_env st0 (body_of 5)))
      = [ CallNewSession {| aws.Region := "eu-west-1" |};
          CallPresign sess
            {| s3.Bucket := "uploads"; s3.Key := "2023-11-14-22-13-20.png";
               s3.ContentType := "image/png"; s3.ContentLength := 5 |}
            600000000000 ].
Proof.
  assert (Hs : succeeds signing_env st0 (body_of 5) descriptor5) by by_evaluation.
  assert (Hd : decodes_to (body_of 5) 5) by (vm_compute; reflexivity).
  destruct (descriptor_is_what_was_signed signing_env st0 _ _ _ Hs Hd)
    as (sess & _ & _ & Hc & _).
  split; [exact Hs|]. split; [exact Hd|]. exists sess. exact Hc.
Defined.

(** ** The signer on any parameters *)

(** X5: whatever its parameters, the signer first asks the SDK for a
    session in the region of [AWS_REGION] and, only if it got one, asks it
    once to sign the PUT of [FileName] in [Bucket] with the content type,
    content length and timeout of the parameters; it makes no other call. *)
Theorem signer_calls env st param :
  calls (snd (GeneratePresignedURL param env st))
  = calls st ++
    CallNewSession {| aws.Region := getenv env "AWS_REGION" |} ::
    match sdk_NewSession env {| aws.Region := getenv env "AWS_REGION" |} with
    | inl _ => []
    | inr sess =>
        [ CallPresign sess
            {| s3.Bucket := GeneratePresignedURLParam.Bucket param;
               s3.Key := GeneratePresignedURLParam.FileName param;
               s3.ContentType := GeneratePresignedURLParam.ContentType param;
               s3.ContentLength := GeneratePresignedURLParam.ContentLength param |}
            (GeneratePresignedURLParam.Timout param) ]
    end.
Proof.
  rewrite signer_state. unfold provider. fold (sessionConfig env).
  destruct (sdk_NewSession env (sessionConfig env)) as [e|sess]; [reflexivity|].
  fold (putObjectInput param).
  destruct (sdk_Presign env sess _ _); reflexivity.
Qed.

(** X6: when the signer returns an error, the response it returns with
    it is the zero value, nothing of the parameters or of the SDK's answer
    in it, the clock has not been read, and the error is one of the
    signer's two own. *)
Theorem signer_failure_is_clean env st param err :
  snd (fst (GeneratePresignedURL param env st)) = Some err ->
  fst (fst (GeneratePresignedURL param env st)) = zeroResponse /\
  reads (snd (GeneratePresignedURL param env st)) = reads st /\
  (err = errorString "failed to create AWS session" \/
   err = errorString "failed to sign request").
Proof.
  destruct (provider env param) as [e|sess e|sess url] eqn:Hp.
  - rewrite (signer_no_session env st param e Hp). cbn. intros [= <-]. auto.
  - rewrite (signer_no_signature env st param sess e Hp). cbn. intros [= <-]. auto.
  - rewrite (signer_signed env st param sess url Hp). cbn. discriminate.
Qed.

Lemma signer_failure_is_clean_witness :
  snd (fst (GeneratePresignedURL odd_param unsigned_env st0))
    = Some (errorString "failed to sign request") /\
  fst (fst (GeneratePresignedURL odd_param unsigned_env st0)) = zeroResponse.
Proof.
  assert (H : snd (fst (GeneratePresignedURL odd_param unsigned_env st0))
              = Some (errorString "failed to sign request")) by (vm_compute; reflexivity).
  split; [exact H|].
  exact (proj1 (signer_failure_is_clean unsigned_env st0 odd_param _ H)).
Defined.

(** [t.Add(d)] moves the instant by [d] nanoseconds, whatever the sign
    of [d], and keeps the nanoseconds within the second. *)
Lemma Add_UnixNano ns l d :
  time.UnixNano (time.Add (time.at_nanos ns l) d) = ns + d /\
  0 <= time.nsec (time.Add (time.at_nanos ns l) d) < 1000000000 /\
  time.loc (time.Add (time.at_nanos ns l) d) = l.
Proof.
  unfold time.Add, time.at_nanos, time.UnixNano.
  cbn [time.sec time.nsec time.loc].
  pose proof (Z.mod_pos_bound ns 1000000000 ltac:(lia)) as Hm.
  pose proof (Z.div_mod ns 1000000000 ltac:(lia)) as Hq.
  pose proof (Z.quot_rem' d 1000000000) as Hd.
  pose proof (Z.rem_bound_abs d 1000000000 ltac:(lia)) as Hr.
  unfold time.Duration in *.
  destruct (Z.leb_spec 1000000000 (ns mod 1000000000 + Z.rem d 1000000000));
    [cbn [time.sec time.nsec time.loc]; repeat split; lia|].
  destruct (Z.ltb_spec (ns mod 1000000000 + Z.rem d 1000000000) 0);
    cbn [time.sec time.nsec time.loc]; repeat split; lia.
Qed.

(** X7: when the signer returns no error, the expiration time it returns
    is the clock reading it took plus the timeout of its parameters, to
    the nanosecond and for every timeout, in the local zone; method and
    URL are PUT and the URL the SDK returned. *)
Theorem signer_expiration env st param :
  snd (fst (GeneratePresignedURL param env st)) = None ->
  let res := fst (fst (GeneratePresignedURL param env st)) in
  time.UnixNano (GeneratePresignedURLResponse.ExpirationTime res)
    = wallclock env (reads st) + GeneratePresignedURLParam.Timout param /\
  0 <= time.nsec (GeneratePresignedURLResponse.ExpirationTime res) < 1000000000 /\
  time.loc (GeneratePresignedURLResponse.ExpirationTime res) = time_Local env /\
  GeneratePresignedURLResponse.Method res = "PUT" /\
  exists sess,
    sdk_Presign env sess (putObjectInput param) (GeneratePresignedURLParam.Timout param)
      = inr (GeneratePresignedURLResponse.PreAssignedURL res).
Proof.
  destruct (provider env param) as [e|sess e|sess url] eqn:Hp.
  - rewrite (signer_no_session env st param e Hp). cbn. discriminate.
  - rewrite (signer_no_signature env st param sess e Hp). cbn. discriminate.
  - rewrite (signer_signed env st param sess url Hp). cbn [fst snd]. intros _.
    cbv zeta. unfold signed_response.
    cbn [GeneratePresignedURLResponse.ExpirationTime GeneratePresignedURLResponse.Method
         GeneratePresignedURLResponse.PreAssignedURL].
    destruct (Add_UnixNano (wallclock env (reads st)) (time_Local env)
                (GeneratePresignedURLParam.Timout param)) as (H1 & H2 & H3).
    split; [exact H1|]. split; [exact H2|]. split; [exact H3|]. split; [reflexivity|].
    exists sess. apply (provider_Signed _ _ _ _ Hp).
Qed.

Lemma signer_expiration_witness :
  snd (fst (GeneratePresignedURL odd_param signing_env st0)) = None /\
  time.UnixNano (GeneratePresignedURLResponse.ExpirationTime
                   (fst (fst (GeneratePresignedURL odd_param signing_env st0))))
    = 1700000000123456789 + 1999999999.
Proof.
  assert (H : snd (fst (GeneratePresignedURL odd_param signing_env st0)) = None)
    by (vm_compute; reflexivity).
  split; [exact H|].
  exact (proj1 (signer_expiration signing_env st0 odd_param H)).
Defined.

(** ** The usage hints, exactly *)

Lemma to_uint_nonnil n : N.to_uint n <> Decimal.Nil.
Proof.
  destruct n as [|p]; [discriminate|]. apply DecimalPos.Unsigned.to_uint_nonnil.
Qed.

(** Decimal printing tells non-negative numbers apart. *)
Lemma utoa_inj u v : 0 <= u -> 0 <= v -> strconv.utoa u = strconv.utoa v -> u = v.
Proof.
  intros Hu Hv H. unfold strconv.utoa in H.
  apply (f_equal NilZero.uint_of_string) in H.
  rewrite !NilZero.usu in H by apply to_uint_nonnil.
  injection H as H. apply DecimalN.Unsigned.to_uint_inj in H. lia.
Qed.

Lemma Itoa_nonneg x : 0 <= x -> strconv.Itoa x = strconv.utoa x.
Proof. intros H. unfold strconv.Itoa. destruct (Z.ltb_spec x 0); [lia | reflexivity]. Qed.

Lemma length_append (a s : string) :
  String.length (a +:+ s) = (String.length a + String.length s)%nat.
Proof.
  induction a as [|c a IH]; [reflexivity|].
  change (String c a +:+ s) with (String c (a +:+ s)). cbn [String.length]. by rewrite IH.
Qed.

Lemma append_cancel_r s : forall a b : string, a +:+ s = b +:+ s -> a = b.
Proof.
  induction a as [|c a IH]; intros [|c' b] H.
  - reflexivity.
  - apply (f_equal String.length) in H. rewrite !length_append in H.
    cbn [String.length] in H. lia.
  - apply (f_equal String.length) in H. rewrite !length_append in H.
    cbn [String.length] in H. lia.
  - change (String c (a +:+ s) = String c' (b +:+ s)) in H.
    injection H as -> H. f_equal. by apply IH.
Qed.

Lemma append_cancel_l p : forall a b : string, p +:+ a = p +:+ b -> a = b.
Proof.
  induction p as [|c p IH]; intros a b H; [exact H|].
  change (String c (p +:+ a) = String c (p +:+ b)) in H.
  injection H as H. by apply IH.
Qed.

(** X8: the details of every successful request are these three hints:
    the hint on use, the hint that the URL will expire after 600000000000
    minutes (the 10 minutes, printed as the nanoseconds the duration
    counts) and the hint that the maximum upload size is the content
    length of the request. *)
Theorem details_exactly env st b d cl :
  succeeds env st b d ->
  decodes_to b cl ->
  GeneratePresignedURLResponse.Details d =
    [ "Use the pre-signed URL to upload the file";
      "The URL will expire after 600000000000 minutes";
      "The maximum upload size is " +:+ strconv.Itoa cl +:+ " bytes" ].
Proof.
  intros Hs Hd.
  destruct (succeeds_inv env st b d Hs) as (cl0 & sess & url & Hd0 & _ & _ & ->).
  unfold decodes_to in Hd, Hd0. rewrite Hd in Hd0. injection Hd0 as <-.
  rewrite descriptor_Details.
  change (strconv.Itoa (10 * time.Minute)) with "600000000000". reflexivity.
Qed.

Lemma details_exactly_witness :
  succeeds signing_env st2 (body_of 7) descriptor7 /\
  decodes_to (body_of 7) 7 /\
  GeneratePresignedURLResponse.Details descriptor7 =
    [ "Use the pre-signed URL to upload the file";
      "The URL will expire after 600000000000 minutes";
      "The maximum upload size is 7 bytes" ].
Proof.
  assert (Hs : succeeds signing_env st2 (body_of 7) descriptor7) by by_evaluation.
  assert (Hd : decodes_to (body_of 7) 7) by (vm_compute; reflexivity).
  split; [exact Hs|]. split; [exact Hd|].
  rewrite (details_exactly signing_env st2 _ _ _ Hs Hd). vm_compute. reflexivity.
Defined.

(** X9: the details tell the content length: two successful requests
    with the same details, in whatever environments, asked for the same
    content length. *)
Theorem details_tell_content_length env st b d cl env' st' b' d' cl' :
  succeeds env st b d -> decodes_to b cl ->
  succeeds env' st' b' d' -> decodes_to b' cl' ->
  GeneratePresignedURLResponse.Details d = GeneratePresignedURLResponse.Details d' ->
  cl = cl'.
Proof.
  intros Hs Hd Hs' Hd' H.
  destruct (succeeds_inv env st b d Hs) as (c & sess & url & Hc & Hr & _ & ->).
  destruct (succeeds_inv env' st' b' d' Hs') as (c' & sess' & url' & Hc' & Hr' & _ & ->).
  unfold decodes_to in *. rewrite Hd in Hc. rewrite Hd' in Hc'.
  injection Hc as <-. injection Hc' as <-.
  apply in_range_spec in Hr, Hr'.
  rewrite !descriptor_Details in H.
  apply (f_equal (fun l => nth 2 l "")) in H. cbn [nth] in H.
  apply append_cancel_l, append_cancel_r in H.
  rewrite !Itoa_nonneg in H by lia. apply utoa_inj in H; lia.
Qed.

Lemma details_tell_content_length_witness :
  succeeds signing_env st0 (body_of 5) descriptor5 /\
  decodes_to (body_of 5) 5 /\
  succeeds signing_env st0 body_extra descriptor5 /\
  decodes_to body_extra 5 /\
  GeneratePresignedURLResponse.Details descriptor5
    = GeneratePresignedURLResponse.Details descriptor5 /\
  5 = 5.
Proof.
  assert (H1 : succeeds signing_env st0 (body_of 5) descriptor5) by by_evaluation.
  assert (H2 : succeeds signing_env st0 body_extra descriptor5) by by_evaluation.
  assert (D1 : decodes_to (body_of 5) 5) by (vm_compute; reflexivity).
  assert (D2 : decodes_to body_extra 5) by (vm_compute; reflexivity).
  exact (conj H1 (conj D1 (conj H2 (conj D2 (conj eq_refl
           (details_tell_content_length _ _ _ _ _ _ _ _ _ _ H1 D1 H2 D2 eq_refl)))))).
Defined.

(** ** Failures, kind by kind *)

(** X10: when the session is made and the signing fails, the request
    gets status 500 with the message "failed to create AWS session", the
    same as for a failed session, and the error "failed to sign request";
    the error of the SDK itself is not in the envelope. *)
Theorem signing_failure_envelope env st b cl sess e :
  decodes_to b cl ->
  0 < cl <= 1048576 ->
  provider env (signingParam env st cl) = NoSignature sess e ->
  exists envelope,
    responds env st b 500 envelope /\
    envelope !! "message" = Some (anyString "failed to create AWS session") /\
    envelope !! "error" = Some (anyString "failed to sign request") /\
    dom envelope = ({[ "success"; "message"; "error" ]} : gset string).
Proof.
  intros Hd Hr Hp. apply in_range_spec in Hr.
  eexists. unfold responds.
  rewrite (serve_no_signature env st b cl sess e Hd Hr Hp). cbn [fst].
  rewrite sent_status, sent_body, Error_message, Error_error, Error_keys_err.
  repeat split.
Qed.

Lemma signing_failure_envelope_witness :
  decodes_to (body_of 5) 5 /\
  0 < 5 <= 1048576 /\
  (exists sess,
     provider unsigned_env (signingParam unsigned_env st0 5)
     = NoSignature sess (sdkError "NoCredentialProviders: no valid providers in chain")) /\
  exists envelope,
    responds unsigned_env st0 (body_of 5) 500 envelope /\
    envelope !! "error" = Some (anyString "failed to sign request").
Proof.
  assert (Hd : decodes_to (body_of 5) 5) by (vm_compute; reflexivity).
  assert (Hr : 0 < 5 <= 1048576) by lia.
  assert (Hp : provider unsigned_env (signingParam unsigned_env st0 5)
               = NoSignature {| aws.config := {| aws.Region := "eu-west-1" |}; aws.handle := 0 |}
                   (sdkError "NoCredentialProviders: no valid providers in chain"))
    by (vm_compute; reflexivity).
  destruct (signing_failure_envelope unsigned_env st0 _ _ _ _ Hd Hr Hp)
    as (envelope & H1 & _ & H3 & _).
  split; [exact Hd|]. split; [exact Hr|]. split; [eexists; exact Hp|].
  exists envelope. exact (conj H1 H3).
Defined.

Lemma object_without_member sn ms : forall cur saved,
  forallb (fun m => negb (content_length_member m)) ms = true ->
  json.object sn "content_length" ms cur saved = (cur, saved).
Proof.
  induction ms as [|[key v] ms IH]; intros cur saved H; [reflexivity|].
  cbn [forallb] in H. apply andb_true_iff in H as [Hk H].
  unfold content_length_member in Hk. cbn [fst] in Hk. apply negb_true_iff in Hk.
  cbn [json.object]. rewrite Hk. by apply IH.
Qed.

Lemma lacks_decodes b : lacks_content_length b = true -> decodes_to b 0.
Proof.
  unfold lacks_content_length, decodes_to, Decode, json.Decode.
  destruct (json.readValue b) as [err|[|x|lit|s|vs|ms]]; try discriminate.
  - reflexivity.
  - intros H. cbn [json.unmarshal GeneratePresignedURLBody.ContentLength zeroBody].
    by rewrite (object_without_member _ ms 0 None H).
Qed.

(** X11: a body that is the JSON value [null], or an object without a
    member for [content_length], is no decode error: the field keeps its
    zero value and the request is rejected for its content length, with
    status 400, no [error] key and the state untouched. *)
Theorem missing_content_length_rejected env st b :
  lacks_content_length b = true ->
  responds env st b 400 (Error "invalid content length" None) /\
  Error "invalid content length" None !! "error" = None /\
  snd (serve env st b) = st.
Proof.
  intros H. apply lacks_decodes in H. unfold responds.
  rewrite (serve_invalid_length env st b 0 H eq_refl). cbn [fst snd].
  rewrite sent_status, sent_body, Error_error. repeat split.
Qed.

Lemma missing_content_length_rejected_witness :
  lacks_content_length body_without = true /\
  lacks_content_length "null" = true /\
  responds signing_env st0 body_without 400 (Error "invalid content length" None) /\
  responds signing_env st0 "null" 400 (Error "invalid content length" None).
Proof.
  assert (H1 : lacks_content_length body_without = true) by (vm_compute; reflexivity).
  assert (H2 : lacks_content_length "null" = true) by (vm_compute; reflexivity).
  split; [exact H1|]. split; [exact H2|]. split.
  - exact (proj1 (missing_content_length_rejected signing_env st0 _ H1)).
  - exact (proj1 (missing_content_length_rejected signing_env st0 _ H2)).
Defined.

(** ** The router of [func main] *)

Lemma eqb_sym (a b : string) : String.eqb a b = String.eqb b a.
Proof.
  destruct (String.eqb_spec a b) as [->|Hn].
  - by rewrite String.eqb_refl.
  - symmetry. apply String.eqb_neq. congruence.
Qed.

(** The router of a process that serves knows one route. *)
Lemma main_route m path :
  chi.routeHTTP (chi.Post chi.NewRouter "/get-upload-url" GetUploadURLHandler) m path
  = if String.eqb path "/get-upload-url"
    then if String.eqb m "POST" then chi.Found GetUploadURLHandler
         else chi.MethodNotAllowed
    else if existsb (String.eqb m) chi.methodMap then chi.NotFound
         else chi.MethodNotAllowed.
Proof.
  unfold chi.routeHTTP, chi.Post, chi.NewRouter.
  cbn [app rev List.find existsb chi.pattern chi.method chi.handler].
  rewrite (eqb_sym "/get-upload-url" path), (eqb_sym "POST" m).
  destruct (String.eqb_spec m "POST") as [->|Hm].
  - change (existsb (String.eqb "POST") chi.methodMap) with true. cbn [negb].
    destruct (String.eqb path "/get-upload-url"); reflexivity.
  - destruct (existsb (String.eqb m) chi.methodMap); cbn [negb];
      destruct (String.eqb path "/get-upload-url"); reflexivity.
Qed.

(** X13: [func main] either prints "Failed to load .env file" and
    exits with code 1, when the environment file does not load, or
    serves on ":3000" with a router, and prints that the server started
    only after [http.ListenAndServe] has returned.  Of the requests sent
    to that router only a POST of [/get-upload-url] reaches the handler,
    and gets what the handler answers; any other request gets no
    envelope, status 405 (another method on the pattern, or an unknown
    method) or 404 (another path), and touches neither the clock nor the
    SDK. *)
Theorem only_post_reaches_handler loaded :
  match loaded with
  | Some _ => main loaded = Exits ["Failed to load .env file"] 1
  | None =>
      exists router,
        main loaded = Serves ":3000" router ["Server started at http://localhost:3000"] /\
        forall r env st,
          let result := ServeHTTP router r http.fresh env st in
          if is_upload_request r
          then result = serve env st (http.Body (chi.Request r))
          else snd result = st /\
               http.Encoded (fst result) = [] /\
               http.Status (fst result)
               = Some (if String.eqb (chi.Path r) "/get-upload-url"
                          || negb (existsb (String.eqb (chi.Method r)) chi.methodMap)
                       then 405 else 404)
  end.
Proof.
  destruct loaded as [err|]; [reflexivity|].
  exists (chi.Post chi.NewRouter "/get-upload-url" GetUploadURLHandler).
  split; [reflexivity|]. intros r env st.
  cbv zeta. unfold ServeHTTP, is_upload_request. rewrite main_route.
  destruct (String.eqb (chi.Path r) "/get-upload-url").
  - destruct (String.eqb (chi.Method r) "POST"); cbn [andb orb].
    + unfold serve. by destruct r as [m p [body]].
    + unfold ret. cbn [fst snd]. auto.
  - rewrite andb_false_r. cbn [orb].
    destruct (existsb (String.eqb (chi.Method r)) chi.methodMap);
      unfold ret; cbn [fst snd negb]; auto.
Qed.

(** ** The name and the expiration *)

(** X14: on a clock that does not go back between the two readings of a
    successful request, the URL expires no earlier than 10 minutes after
    the instant its file name was made from, hence no earlier than 10
    minutes after the start of the second the name shows. *)
Theorem expiration_after_name env st b d :
  succeeds env st b d ->
  wallclock env (reads st) <= wallclock env (S (reads st)) ->
  wallclock env (reads st) + 10 * 60 * 1000000000
    <= time.UnixNano (GeneratePresignedURLResponse.ExpirationTime d) /\
  (wallclock env (reads st) / 1000000000 + 10 * 60) * 1000000000
    <= time.UnixNano (GeneratePresignedURLResponse.ExpirationTime d).
Proof.
  intros Hs Hmono.
  destruct (succeeds_inv env st b d Hs) as (cl & sess & url & _ & _ & _ & ->).
  rewrite descriptor_ExpirationTime, Add_ten_minutes.
  pose proof (Z.div_mod (wallclock env (reads st)) 1000000000 ltac:(lia)) as Hq.
  pose proof (Z.mod_pos_bound (wallclock env (reads st)) 1000000000 ltac:(lia)) as Hm.
  lia.
Qed.

Lemma expiration_after_name_witness :
  succeeds signing_env st0 (body_of 5) descriptor5 /\
  wallclock signing_env (reads st0) <= wallclock signing_env (S (reads st0)) /\
  wallclock signing_env (reads st0) + 10 * 60 * 1000000000
    <= time.UnixNano (GeneratePresignedURLResponse.ExpirationTime descriptor5).
Proof.
  assert (Hs : succeeds signing_env st0 (body_of 5) descriptor5) by by_evaluation.
  assert (Hm : wallclock signing_env (reads st0) <= wallclock signing_env (S (reads st0)))
    by (vm_compute; discriminate).
  split; [exact Hs|]. split; [exact Hm|].
  exact (proj1 (expiration_after_name signing_env st0 _ _ Hs Hm)).
Defined.

(** ** The bytes of a file name *)

Lemma all_bytes_app p (a b : string) :
  all_bytes p (a +:+ b) = all_bytes p a && all_bytes p b.
Proof.
  induction a as [|c a IH]; [reflexivity|].
  change (String c a +:+ b) with (String c (a +:+ b)). cbn [all_bytes].
  by rewrite IH, andb_assoc.
Qed.

Lemma all_bytes_weaken (p q : ascii -> bool) s :
  (forall c, p c = true -> q c = true) -> all_bytes p s = true -> all_bytes q s = true.
Proof.
  intros Hpq. induction s as [|c s IH]; [reflexivity|]. cbn [all_bytes].
  intros H. apply andb_true_iff in H as [Hc Hs]. by rewrite (Hpq c Hc), IH.
Qed.

Lemma uint_digits d : all_bytes json.isDigit (NilEmpty.string_of_uint d) = true.
Proof.
  induction d; [reflexivity|..]; cbn [NilEmpty.string_of_uint all_bytes];
    rewrite IHd; reflexivity.
Qed.

Lemma utoa_digits u : all_bytes json.isDigit (strconv.utoa u) = true.
Proof.
  unfold strconv.utoa, NilZero.string_of_uint.
  destruct (N.to_uint (Z.to_N u)) eqn:E; try reflexivity; rewrite <- E at 1;
    apply uint_digits.
Qed.

Lemma repeat_zero n : all_bytes stamp_byte (repeat_byte n "0") = true.
Proof. induction n as [|n IH]; [reflexivity|]. cbn [repeat_byte all_bytes]. by rewrite IH. Qed.

Lemma appendInt_bytes x width : all_bytes stamp_byte (time.appendInt x width) = true.
Proof.
  unfold time.appendInt. rewrite !all_bytes_app, repeat_zero.
  rewrite (all_bytes_weaken json.isDigit stamp_byte _ (fun c H => orb_true_intro _ _ (or_introl H))
             (utoa_digits (Z.abs x))).
  destruct (x <? 0); reflexivity.
Qed.

Lemma Format_bytes t : all_bytes stamp_byte (time.Format t "2006-01-02-15-04-05") = true.
Proof.
  unfold time.Format.
  change (time.chunks 0 "2006-01-02-15-04-05")
    with [ time.stdLongYear; time.literal "-"; time.stdZeroMonth; time.literal "-";
           time.stdZeroDay; time.literal "-"; time.stdHour; time.literal "-";
           time.stdZeroMinute; time.literal "-"; time.stdZeroSecond ].
  cbn [fold_right time.appendChunk].
  rewrite !all_bytes_app, !appendInt_bytes. reflexivity.
Qed.

(** X15: the file name of every successful request, at any date and in
    any time zone, is a stem of decimal digits and dashes followed by
    ".png": it has no slash, no backslash, no dot but the one of the
    extension, and nothing of the request. *)
Theorem file_name_bytes env st b d :
  succeeds env st b d ->
  exists stem,
    GeneratePresignedURLResponse.FileName d = stem +:+ ".png" /\
    all_bytes stamp_byte stem = true.
Proof.
  intros Hs.
  destruct (succeeds_inv env st b d Hs) as (cl & sess & url & _ & _ & _ & ->).
  rewrite descriptor_FileName. eexists. split; [reflexivity | apply Format_bytes].
Qed.

Lemma file_name_bytes_witness :
  succeeds signing_env st0 (body_of 5) descriptor5 /\
  exists stem,
    "2023-11-14-22-13-20.png" = stem +:+ ".png" /\ all_bytes stamp_byte stem = true.
Proof.
  assert (Hs : succeeds signing_env st0 (body_of 5) descriptor5) by by_evaluation.
  split; [exact Hs|].
  exact (file_name_bytes signing_env st0 _ _ Hs).
Defined.

(** The router of [func main] on three requests. *)
Example router_samples :
  match main None with
  | Serves _ router _ =>
      http.Status (fst (ServeHTTP router get_upload http.fresh signing_env st0)) = Some 405 /\
      http.Status (fst (ServeHTTP router post_elsewhere http.fresh signing_env st0)) = Some 404 /\
      http.Status (fst (ServeHTTP router post_upload http.fresh signing_env st0)) = Some 200
  | Exits _ _ => False
  end.
Proof. repeat split; vm_compute; reflexivity. Qed.

(** ** Content lengths written in decimal *)

Lemma nzhead_head d :
  match Decimal.nzhead d with Decimal.D0 _ => False | _ => True end.
Proof. induction d; cbn; auto. Qed.

(** [N.to_uint] gives "0" or digits that do not start with 0. *)
Lemma to_uint_normal n :
  match N.to_uint n with
  | Decimal.Nil => False
  | Decimal.D0 d => d = Decimal.Nil
  | _ => True
  end.
Proof.
  pose proof (DecimalN.Unsigned.to_of (N.to_uint n)) as H.
  rewrite DecimalN.Unsigned.of_to in H.
  set (d := N.to_uint n) in *. rewrite H. unfold Decimal.unorm.
  pose proof (nzhead_head d) as Hh.
  destruct (Decimal.nzhead d); cbn in *; auto; contradiction.
Qed.

Lemma digits_value_acc d : forall acc : positive,
  json.digits_value (Z.pos acc) (NilEmpty.string_of_uint d)
  = Some (Z.pos (Pos.of_uint_acc d acc)).
Proof.
  induction d; intros acc; cbn [NilEmpty.string_of_uint Pos.of_uint_acc json.digits_value];
    [reflexivity|..];
    match goal with
    | |- context [json.isDigit ?c] => change (json.isDigit c) with true
    end; cbv iota;
    match goal with
    | |- json.digits_value ?z _ = Some (Z.pos (Pos.of_uint_acc _ ?p)) =>
        replace z with (Z.pos p)
          by (digit_code; lia)
    end; apply IHd.
Qed.

Lemma digits_value_uint d :
  json.digits_value 0 (NilEmpty.string_of_uint d) = Some (Z.of_N (Pos.of_uint d)).
Proof.
  induction d; cbn [NilEmpty.string_of_uint Pos.of_uint json.digits_value];
    [reflexivity|..];
    match goal with
    | |- context [json.isDigit ?c] => change (json.isDigit c) with true
    end; cbv iota.
  - replace (0 * 10 + (code "0" - 48)) with 0 by (digit_code; lia). exact IHd.
  - replace (0 * 10 + (code "1" - 48)) with (Z.pos 1) by (digit_code; lia).
    apply digits_value_acc.
  - replace (0 * 10 + (code "2" - 48)) with (Z.pos 2) by (digit_code; lia).
    apply digits_value_acc.
  - replace (0 * 10 + (code "3" - 48)) with (Z.pos 3) by (digit_code; lia).
    apply digits_value_acc.
  - replace (0 * 10 + (code "4" - 48)) with (Z.pos 4) by (digit_code; lia).
    apply digits_value_acc.
  - replace (0 * 10 + (code "5" - 48)) with (Z.pos 5) by (digit_code; lia).
    apply digits_value_acc.
  - replace (0 * 10 + (code "6" - 48)) with (Z.pos 6) by (digit_code; lia).
    apply digits_value_acc.
  - replace (0 * 10 + (code "7" - 48)) with (Z.pos 7) by (digit_code; lia).
    apply digits_value_acc.
  - replace (0 * 10 + (code "8" - 48)) with (Z.pos 8) by (digit_code; lia).
    apply digits_value_acc.
  - replace (0 * 10 + (code "9" - 48)) with (Z.pos 9) by (digit_code; lia).
    apply digits_value_acc.
Qed.

Lemma utoa_NilEmpty u : strconv.utoa u = NilEmpty.string_of_uint (N.to_uint (Z.to_N u)).
Proof.
  unfold strconv.utoa, NilZero.string_of_uint.
  pose proof (to_uint_nonnil (Z.to_N u)) as H.
  destruct (N.to_uint (Z.to_N u)); [contradiction|..]; reflexivity.
Qed.

(** Reading the decimal digits of a number gives the number back. *)
Lemma utoa_value u : 0 <= u -> json.digits_value 0 (strconv.utoa u) = Some u.
Proof.
  intros Hu. rewrite utoa_NilEmpty, digits_value_uint.
  change (Pos.of_uint (N.to_uint (Z.to_N u))) with (N.of_uint (N.to_uint (Z.to_N u))).
  rewrite DecimalN.Unsigned.of_to. f_equal. lia.
Qed.

(** The digits of a number start with a digit. *)
Lemma utoa_head u :
  exists c tl, strconv.utoa u = String c tl /\ json.isDigit c = true /\ json.eqc c "-" = false.
Proof.
  rewrite utoa_NilEmpty. pose proof (to_uint_nonnil (Z.to_N u)) as H.
  destruct (N.to_uint (Z.to_N u)); [contradiction|..];
    cbn [NilEmpty.string_of_uint]; eexists _, _; repeat split.
Qed.

(** [ParseInt] on the decimal text of an integer: the integer, if it is
    an int64. *)
Lemma ParseInt64_Itoa n :
  json.ParseInt64 (strconv.Itoa n)
  = if (json.minInt64 <=? n) && (n <=? json.maxInt64) then Some n else None.
Proof.
  unfold json.ParseInt64, strconv.Itoa.
  destruct (Z.ltb_spec n 0) as [Hneg|Hpos].
  - change (json.eqc "-" "-") with true. cbv iota.
    destruct (utoa_head (- n)) as (c & tl & E & _ & _).
    rewrite utoa_value by lia. rewrite E. cbn [fmap option_fmap option_map].
    by rewrite Z.opp_involutive.
  - destruct (utoa_head n) as (c & tl & E & _ & Hc).
    rewrite utoa_value by lia. rewrite E, Hc. reflexivity.
Qed.

(** The scanner reads a run of digits up to a closing brace. *)
Lemma scan_digits d r :
  json.scan_number json.state1 (NilEmpty.string_of_uint d +:+ String "}" r)
  = json.Ok (NilEmpty.string_of_uint d) (String "}" r).
Proof.
  induction d; cbn [NilEmpty.string_of_uint]; [reflexivity|..];
    match goal with
    | |- context [String ?c ?s +:+ ?x] => change (String c s +:+ x) with (String c (s +:+ x))
    end;
    cbn [json.scan_number];
    match goal with
    | |- context [json.isDigit ?c] => change (json.isDigit c) with true
    end; cbv iota; rewrite IHd; reflexivity.
Qed.

Lemma scan_value_digits c d f depth r :
  json.isDigit19 c = true ->
  json.scan_value (S f) depth (String c (NilEmpty.string_of_uint d +:+ String "}" r))
  = json.Ok (json.Number (String c (NilEmpty.string_of_uint d))) (String "}" r).
Proof.
  intros Hc.
  assert (Hs : json.isSpace c = false /\ json.eqc c "{" = false /\ json.eqc c "[" = false
               /\ json.eqc c dquote = false /\ json.eqc c "-" = false /\ json.eqc c "0" = false).
  { revert Hc. destruct c as [[] [] [] [] [] [] [] []]; vm_compute; intros; try discriminate; auto 10. }
  destruct Hs as (H1 & H2 & H3 & H4 & H5 & H6).
  cbn [json.scan_value]. unfold json.next at 1. cbn [json.skipSpace].
  rewrite H1, H2, H3, H4, H5, H6, Hc, scan_digits. reflexivity.
Qed.

Lemma utoa_shape u :
  strconv.utoa u = "0" \/
  exists c d, json.isDigit19 c = true /\ strconv.utoa u = String c (NilEmpty.string_of_uint d).
Proof.
  rewrite utoa_NilEmpty. pose proof (to_uint_normal (Z.to_N u)) as H.
  destruct (N.to_uint (Z.to_N u)) as [|d|d|d|d|d|d|d|d|d|d];
    [ contradiction | subst; by left
    | right; exists "1"%char, d | right; exists "2"%char, d | right; exists "3"%char, d
    | right; exists "4"%char, d | right; exists "5"%char, d | right; exists "6"%char, d
    | right; exists "7"%char, d | right; exists "8"%char, d | right; exists "9"%char, d ];
    split; reflexivity.
Qed.

Lemma isDigit19_other c :
  json.isDigit19 c = true ->
  json.isSpace c = false /\ json.eqc c "{" = false /\ json.eqc c "[" = false
  /\ json.eqc c dquote = false /\ json.eqc c "-" = false /\ json.eqc c "0" = false.
Proof.
  destruct c as [[] [] [] [] [] [] [] []]; vm_compute; intros; try discriminate; auto 10.
Qed.

Lemma scan_value_negative c d f depth r :
  json.isDigit19 c = true ->
  json.scan_value (S f) depth
    (String "-" (String c (NilEmpty.string_of_uint d +:+ String "}" r)))
  = json.Ok (json.Number (String "-" (String c (NilEmpty.string_of_uint d)))) (String "}" r).
Proof.
  intros Hc. destruct (isDigit19_other c Hc) as (_ & _ & _ & _ & _ & H0).
  transitivity
    (json.andThen
       (json.scan_number json.stateNeg (String c (NilEmpty.string_of_uint d +:+ String "}" r)))
       (fun lit rest1 => json.Ok (json.Number (String "-" lit)) rest1));
    [reflexivity|].
  cbn [json.scan_number]. rewrite H0, Hc, scan_digits. reflexivity.
Qed.

(** The scanner reads the decimal text of an integer, up to a closing
    brace, as one number literal. *)
Lemma scan_value_Itoa n f depth r :
  json.scan_value (S f) depth (strconv.Itoa n +:+ String "}" r)
  = json.Ok (json.Number (strconv.Itoa n)) (String "}" r).
Proof.
  unfold strconv.Itoa. destruct (Z.ltb_spec n 0) as [Hneg|Hpos].
  - destruct (utoa_shape (- n)) as [E|(c & d & Hc & E)].
    + pose proof (utoa_value (- n) ltac:(lia)) as Hv. rewrite E in Hv.
      change (json.digits_value 0 "0") with (Some 0) in Hv. injection Hv as Hv. lia.
    + rewrite E. apply scan_value_negative, Hc.
  - destruct (utoa_shape n) as [E|(c & d & Hc & E)]; rewrite E.
    + reflexivity.
    + apply scan_value_digits, Hc.
Qed.

Lemma scan_value_space f depth s :
  json.scan_value (S f) depth (String " " s) = json.scan_value (S f) depth s.
Proof. reflexivity. Qed.

Lemma scan_value_body_of f n :
  json.scan_value (S (S (S f))) 0 (body_of n)
  = json.Ok (json.Object [("content_length", json.Number (strconv.Itoa n))]) "".
Proof.
  set (tail := strconv.Itoa n +:+ String "}" "").
  transitivity
    (json.andThen (json.scan_value (S f) 1 (String " " tail))
       (fun v rest3 =>
          json.next rest3 (fun c4 rest4 =>
            if json.eqc c4 "," then
              json.scan_members (S f) 1 ([] ++ [("content_length", v)]) rest4
            else if json.eqc c4 "}" then json.Ok (json.Object ([] ++ [("content_length", v)])) rest4
            else json.Invalid c4 "after object key:value pair")));
    [|subst tail; rewrite scan_value_space, scan_value_Itoa; reflexivity].
  reflexivity.
Qed.

(** The first JSON value of the body [{"content_length": n}]. *)
Lemma readValue_body_of n :
  json.readValue (body_of n)
  = inr (json.Object [("content_length", json.Number (strconv.Itoa n))]).
Proof.
  unfold json.readValue.
  assert (Hb : exists k, String.length (body_of n) = S k) by (eexists; reflexivity).
  destruct Hb as [k ->].
  replace (2 * S k + 2)%nat with (S (S (S (2 * k + 1)))) by lia.
  by rewrite scan_value_body_of.
Qed.

(** [Decode] on the body [{"content_length": n}]. *)
Lemma Decode_body_of n :
  Decode (body_of n) zeroBody
  = if (json.minInt64 <=? n) && (n <=? json.maxInt64)
    then ({| GeneratePresignedURLBody.ContentLength := n |}, None)
    else (zeroBody,
          Some (UnmarshalTypeError ("number " +:+ strconv.Itoa n) "int64"
                  "GeneratePresignedURLBody" "content_length")).
Proof.
  unfold Decode, json.Decode. rewrite readValue_body_of.
  cbn [json.unmarshal json.object].
  change (json.field_matches "content_length" "content_length") with true. cbv iota.
  cbn [json.store_int64]. rewrite ParseInt64_Itoa.
  destruct ((json.minInt64 <=? n) && (n <=? json.maxInt64)); reflexivity.
Qed.

(** X16: writing a content length in decimal and decoding the body
    gives it back, for every int64.  So the body [{"content_length": n}]
    is rejected with "invalid content length" exactly when n <= 0 or
    n > 1048576, and for every other n the signer is called. *)
Theorem decimal_body_round_trip env st n :
  json.minInt64 <= n <= json.maxInt64 ->
  decodes_to (body_of n) n /\
  (n <= 0 \/ 1048576 < n ->
   responds env st (body_of n) 400 (Error "invalid content length" None)) /\
  (0 < n <= 1048576 ->
   exists more,
     calls (snd (serve env st (body_of n)))
     = calls st ++ CallNewSession (sessionConfig env) :: more).
Proof.
  intros Hn.
  assert (Hd : decodes_to (body_of n) n).
  { unfold decodes_to. rewrite Decode_body_of.
    destruct (Z.leb_spec json.minInt64 n); [|lia].
    destruct (Z.leb_spec n json.maxInt64); [|lia]. reflexivity. }
  split; [exact Hd|]. split.
  - intros Hout. unfold responds.
    assert (Hr : in_range n = false).
    { unfold in_range, MAX_UPLOAD_SIZE. apply negb_false_iff, orb_true_iff.
      destruct Hout; [left|right]; lia. }
    rewrite (serve_invalid_length env st _ n Hd Hr). cbn [fst snd].
    by rewrite sent_status, sent_body.
  - intros Hin.
    assert (Hr : in_range n = true).
    { unfold in_range, MAX_UPLOAD_SIZE. apply negb_true_iff, orb_false_iff. split; lia. }
    destruct (serve_path env st (body_of n)) as (status & envelope & st' & Hp & ->).
    cbn [snd].
    destruct Hp as [err Hf|cl Hd' Hr'|cl e Hd' Hr' Hp|cl sess e Hd' Hr' Hp|cl sess url Hd' Hr' Hp].
    + unfold decode_fails in Hf. unfold decodes_to in Hd. rewrite Hd in Hf. discriminate.
    + unfold decodes_to in Hd, Hd'. rewrite Hd in Hd'. injection Hd' as <-. congruence.
    + by eexists.
    + by eexists.
    + by eexists.
Qed.

Lemma decimal_body_round_trip_witness :
  json.minInt64 <= 5 <= json.maxInt64 /\
  decodes_to (body_of 5) 5.
Proof.
  assert (H : json.minInt64 <= 5 <= json.maxInt64) by (unfold json.minInt64, json.maxInt64; lia).
  exact (conj H (proj1 (decimal_body_round_trip signing_env st0 5 H))).
Defined.

(** X17: a content length beyond int64 does not wrap around.  The
    body [{"content_length": n}] with n outside int64 is a decode error:
    status 400, "invalid request body", the error naming the number and
    the field, and the state untouched. *)
Theorem content_length_beyond_int64 env st n :
  n < json.minInt64 \/ json.maxInt64 < n ->
  exists err,
    responds env st (body_of n) 400 (Error "invalid request body" (Some err)) /\
    json.Error_method err
    = "json: cannot unmarshal number " +:+ strconv.Itoa n
        +:+ " into Go struct field GeneratePresignedURLBody.content_length of type int64" /\
    snd (serve env st (body_of n)) = st.
Proof.
  intros Hn.
  exists (UnmarshalTypeError ("number " +:+ strconv.Itoa n) "int64"
            "GeneratePresignedURLBody" "content_length").
  assert (Hf : decode_fails (body_of n)
                 (UnmarshalTypeError ("number " +:+ strconv.Itoa n) "int64"
                    "GeneratePresignedURLBody" "content_length")).
  { unfold decode_fails. rewrite Decode_body_of.
    destruct (Z.leb_spec json.minInt64 n); [|reflexivity].
    destruct (Z.leb_spec n json.maxInt64); [lia|reflexivity]. }
  unfold responds. rewrite (serve_decode_error env st _ _ Hf). cbn [fst snd].
  rewrite sent_status, sent_body. repeat split.
Qed.

Lemma content_length_beyond_int64_witness :
  (9223372036854775808 < json.minInt64 \/ json.maxInt64 < 9223372036854775808) /\
  exists err,
    responds signing_env st0 (body_of 9223372036854775808) 400
      (Error "invalid request body" (Some err)) /\
    json.Error_method err
    = "json: cannot unmarshal number " +:+ strconv.Itoa 9223372036854775808
        +:+ " into Go struct field GeneratePresignedURLBody.content_length of type int64" /\
    snd (serve signing_env st0 (body_of 9223372036854775808)) = st0.
Proof.
  assert (H : 9223372036854775808 < json.minInt64 \/ json.maxInt64 < 9223372036854775808)
    by (right; unfold json.maxInt64; lia).
  exact (conj H (content_length_beyond_int64 signing_env st0 _ H)).
Defined.

(** ** Bytes after the first JSON value *)

(** More fuel does not change what the scanner gives. *)
Lemma more_next {A} s (k k' : ascii -> string -> json.scanned A) :
  (forall c rest, k c rest = json.OutOfFuel \/ k c rest = k' c rest) ->
  json.next s k = json.OutOfFuel \/ json.next s k = json.next s k'.
Proof. intros H. unfold json.next. destruct (json.skipSpace s); auto. Qed.

Lemma more_andThen {A B} (r r' : json.scanned A) (k k' : A -> string -> json.scanned B) :
  r = json.OutOfFuel \/ r = r' ->
  (forall a rest, k a rest = json.OutOfFuel \/ k a rest = k' a rest) ->
  json.andThen r k = json.OutOfFuel \/ json.andThen r k = json.andThen r' k'.
Proof. intros [->| <-] H; [by left|]. destruct r; cbn; auto. Qed.

Lemma scan_more_fuel f : forall f', (f <= f')%nat ->
  (forall depth s,
     json.scan_value f depth s = json.OutOfFuel \/
     json.scan_value f depth s = json.scan_value f' depth s) /\
  (forall depth acc s,
     json.scan_members f depth acc s = json.OutOfFuel \/
     json.scan_members f depth acc s = json.scan_members f' depth acc s) /\
  (forall depth acc s,
     json.scan_elements f depth acc s = json.OutOfFuel \/
     json.scan_elements f depth acc s = json.scan_elements f' depth acc s).
Proof.
  induction f as [|f IH]; intros f' Hle; [repeat split; intros; by left|].
  destruct f' as [|f']; [lia|].
  destruct (IH f' ltac:(lia)) as (IHv & IHm & IHe).
  repeat split.
  - intros depth s. cbn [json.scan_value].
    apply more_next. intros c rest.
    destruct (json.eqc c "{").
    { destruct (json.maxNestingDepth <=? depth); [by right|].
      apply more_next. intros c1 rest1. destruct (json.eqc c1 "}"); [by right|]. apply IHm. }
    destruct (json.eqc c "[").
    { destruct (json.maxNestingDepth <=? depth); [by right|].
      apply more_next. intros c1 rest1. destruct (json.eqc c1 "]"); [by right|]. apply IHe. }
    by right.
  - intros depth acc s. cbn [json.scan_members].
    apply more_next. intros c rest.
    destruct (json.eqc c dquote); [|by right].
    apply more_andThen; [by right|]. intros raw rest1.
    apply more_next. intros c2 rest2.
    destruct (json.eqc c2 ":"); [|by right].
    apply more_andThen; [apply IHv|]. intros v rest3.
    apply more_next. intros c4 rest4.
    destruct (json.eqc c4 ","); [apply IHm|by right].
  - intros depth acc s. cbn [json.scan_elements].
    apply more_andThen; [apply IHv|]. intros v rest1.
    apply more_next. intros c rest2.
    destruct (json.eqc c ","); [apply IHe|by right].
Qed.

(** What follows the input does not matter to an item that was read to
    its end. *)
Lemma next_inv {A} s (k : ascii -> string -> json.scanned A) a rest :
  json.next s k = json.Ok a rest ->
  exists c rest0, json.skipSpace s = String c rest0 /\ k c rest0 = json.Ok a rest.
Proof.
  unfold json.next. destruct (json.skipSpace s) as [|c rest0]; [discriminate|]. eauto.
Qed.

Lemma andThen_inv {A B} (r : json.scanned A) (k : A -> string -> json.scanned B) b rest :
  json.andThen r k = json.Ok b rest ->
  exists a rest0, r = json.Ok a rest0 /\ k a rest0 = json.Ok b rest.
Proof. destruct r; cbn; try discriminate. eauto. Qed.

Lemma skipSpace_app s t c rest :
  json.skipSpace s = String c rest -> json.skipSpace (s +:+ t) = String c (rest +:+ t).
Proof.
  induction s as [|c0 s IH]; [discriminate|].
  change (String c0 s +:+ t) with (String c0 (s +:+ t)). cbn [json.skipSpace].
  destruct (json.isSpace c0); [exact IH|]. intros [= -> ->]. reflexivity.
Qed.

Lemma next_app {A} s t (k : ascii -> string -> json.scanned A) c rest :
  json.skipSpace s = String c rest -> json.next (s +:+ t) k = k c (rest +:+ t).
Proof. intros H. unfold json.next. by rewrite (skipSpace_app s t c rest H). Qed.

Lemma scan_string_app t s : forall st raw rest,
  json.scan_string st s = json.Ok raw rest ->
  json.scan_string st (s +:+ t) = json.Ok raw (rest +:+ t).
Proof.
  induction s as [|c s IH]; intros st raw rest; [discriminate|].
  change (String c s +:+ t) with (String c (s +:+ t)). cbn [json.scan_string]. cbv zeta.
  assert (Hkeep : forall st',
            match json.scan_string st' s with
            | json.Ok raw0 rest' => json.Ok (String c raw0) rest'
            | other => other
            end = json.Ok raw rest ->
            match json.scan_string st' (s +:+ t) with
            | json.Ok raw0 rest' => json.Ok (String c raw0) rest'
            | other => other
            end = json.Ok raw (rest +:+ t)).
  { intros st'. destruct (json.scan_string st' s) as [raw0 rest'| | |] eqn:E; try discriminate.
    intros [= <- <-]. by rewrite (IH _ _ _ E). }
  destruct st as [| |seen];
    repeat match goal with
           | |- context [if ?x then _ else _] => destruct x
           end; try discriminate; try apply Hkeep.
  intros [= <- <-]. reflexivity.
Qed.

Lemma scan_word_app name t expect : forall s rest,
  json.scan_word name expect s = json.Ok tt rest ->
  json.scan_word name expect (s +:+ t) = json.Ok tt (rest +:+ t).
Proof.
  induction expect as [|e expect IH]; intros s rest; cbn [json.scan_word].
  - intros [= <-]. reflexivity.
  - destruct s as [|c s]; [discriminate|].
    change (String c s +:+ t) with (String c (s +:+ t)). cbv iota.
    destruct (json.eqc c e); [apply IH|discriminate].
Qed.

Lemma scan_number_app t s : forall st lit rest,
  json.scan_number st s = json.Ok lit rest -> rest <> "" ->
  json.scan_number st (s +:+ t) = json.Ok lit (rest +:+ t).
Proof.
  induction s as [|c s IH]; intros st lit rest.
  - cbn [json.scan_number]. destruct st; try discriminate; intros [= <- <-] H; contradiction.
  - change (String c s +:+ t) with (String c (s +:+ t)). cbn [json.scan_number]. cbv zeta.
    intros H Hne.
    assert (Hkeep : forall st',
              match json.scan_number st' s with
              | json.Ok lit0 rest' => json.Ok (String c lit0) rest'
              | other => other
              end = json.Ok lit rest ->
              match json.scan_number st' (s +:+ t) with
              | json.Ok lit0 rest' => json.Ok (String c lit0) rest'
              | other => other
              end = json.Ok lit (rest +:+ t)).
    { intros st'. destruct (json.scan_number st' s) as [lit0 rest'| | |] eqn:E; try discriminate.
      intros [= <- <-]. by rewrite (IH _ _ _ E Hne). }
    revert H.
    destruct st;
      repeat match goal with
             | |- context [if ?x then _ else _] => destruct x
             end; try discriminate; try apply Hkeep;
      intros [= <- <-]; reflexivity.
Qed.

Lemma scan_app t f :
  (forall depth s v rest,
     json.scan_value f depth s = json.Ok v rest ->
     (forall lit, v = json.Number lit -> rest <> "") ->
     json.scan_value f depth (s +:+ t) = json.Ok v (rest +:+ t)) /\
  (forall depth acc s v rest,
     json.scan_members f depth acc s = json.Ok v rest ->
     json.scan_members f depth acc (s +:+ t) = json.Ok v (rest +:+ t)) /\
  (forall depth acc s v rest,
     json.scan_elements f depth acc s = json.Ok v rest ->
     json.scan_elements f depth acc (s +:+ t) = json.Ok v (rest +:+ t)).
Proof.
  induction f as [|f (IHv & IHm & IHe)]; [repeat split; intros; discriminate|].
  assert (Hfollowed : forall (v : json.value) (rest : string) c rest',
            json.skipSpace rest = String c rest' ->
            forall lit, v = json.Number lit -> rest <> "").
  { intros v rest c rest' Hs lit _ ->. discriminate Hs. }
  repeat split.
  - intros depth s v rest H Hv. cbn [json.scan_value] in *.
    apply next_inv in H as (c & rest0 & Hs & H). rewrite (next_app s t _ c rest0 Hs).
    destruct (json.eqc c "{").
    { destruct (json.maxNestingDepth <=? depth); [discriminate|].
      apply next_inv in H as (c1 & rest1 & Hs1 & H). rewrite (next_app rest0 t _ c1 rest1 Hs1).
      destruct (json.eqc c1 "}"); [by injection H as <- <-|].
      apply (IHm _ _ (String c1 rest1)), H. }
    destruct (json.eqc c "[").
    { destruct (json.maxNestingDepth <=? depth); [discriminate|].
      apply next_inv in H as (c1 & rest1 & Hs1 & H). rewrite (next_app rest0 t _ c1 rest1 Hs1).
      destruct (json.eqc c1 "]"); [by injection H as <- <-|].
      apply (IHe _ _ (String c1 rest1)), H. }
    destruct (json.eqc c dquote).
    { apply andThen_inv in H as (raw & rest1 & Hr & H).
      rewrite (scan_string_app t _ _ _ _ Hr). cbn [json.andThen]. by injection H as <- <-. }
    destruct (json.eqc c "-").
    { apply andThen_inv in H as (lit & rest1 & Hr & H). injection H as <- <-.
      rewrite (scan_number_app t _ _ _ _ Hr (Hv _ eq_refl)). reflexivity. }
    destruct (json.eqc c "0").
    { apply andThen_inv in H as (lit & rest1 & Hr & H). injection H as <- <-.
      rewrite (scan_number_app t _ _ _ _ Hr (Hv _ eq_refl)). reflexivity. }
    destruct (json.isDigit19 c).
    { apply andThen_inv in H as (lit & rest1 & Hr & H). injection H as <- <-.
      rewrite (scan_number_app t _ _ _ _ Hr (Hv _ eq_refl)). reflexivity. }
    destruct (json.eqc c "t").
    { apply andThen_inv in H as ([] & rest1 & Hr & H). injection H as <- <-.
      rewrite (scan_word_app _ t _ _ _ Hr). reflexivity. }
    destruct (json.eqc c "f").
    { apply andThen_inv in H as ([] & rest1 & Hr & H). injection H as <- <-.
      rewrite (scan_word_app _ t _ _ _ Hr). reflexivity. }
    destruct (json.eqc c "n").
    { apply andThen_inv in H as ([] & rest1 & Hr & H). injection H as <- <-.
      rewrite (scan_word_app _ t _ _ _ Hr). reflexivity. }
    discriminate.
  - intros depth acc s v rest H. cbn [json.scan_members] in *.
    apply next_inv in H as (c & rest0 & Hs & H). rewrite (next_app s t _ c rest0 Hs).
    destruct (json.eqc c dquote); [|discriminate].
    apply andThen_inv in H as (raw & rest1 & Hr & H).
    rewrite (scan_string_app t _ _ _ _ Hr). cbn [json.andThen].
    apply next_inv in H as (c2 & rest2 & Hs2 & H). rewrite (next_app rest1 t _ c2 rest2 Hs2).
    destruct (json.eqc c2 ":"); [|discriminate].
    apply andThen_inv in H as (v0 & rest3 & Hv0 & H).
    apply next_inv in H as (c4 & rest4 & Hs4 & H).
    rewrite (IHv _ _ _ _ Hv0 (Hfollowed v0 rest3 c4 rest4 Hs4)). cbn [json.andThen].
    rewrite (next_app rest3 t _ c4 rest4 Hs4).
    destruct (json.eqc c4 ","); [by apply IHm|].
    destruct (json.eqc c4 "}"); [by injection H as <- <-|discriminate].
  - intros depth acc s v rest H. cbn [json.scan_elements] in *.
    apply andThen_inv in H as (v0 & rest1 & Hv0 & H).
    apply next_inv in H as (c & rest2 & Hs & H).
    rewrite (IHv _ _ _ _ Hv0 (Hfollowed v0 rest1 c rest2 Hs)). cbn [json.andThen].
    rewrite (next_app rest1 t _ c rest2 Hs).
    destruct (json.eqc c ","); [by apply IHe|].
    destruct (json.eqc c "]"); [by injection H as <- <-|discriminate].
Qed.

(** [readValue] reads the first JSON value and leaves the bytes after
    it alone, unless the value is a number the bytes might continue. *)
Lemma readValue_app b t v :
  json.readValue b = inr v ->
  (forall lit, v <> json.Number lit) ->
  json.readValue (b +:+ t) = inr v.
Proof.
  unfold json.readValue. intros H Hv.
  destruct (json.scan_value (2 * String.length b + 2) 0 b) as [v0 rest| | |] eqn:E;
    try discriminate.
  injection H as ->.
  assert (Hle : (2 * String.length b + 2 <= 2 * String.length (b +:+ t) + 2)%nat)
    by (rewrite length_append; lia).
  destruct (proj1 (scan_more_fuel _ _ Hle) 0 b) as [Hout|Hsame];
    [rewrite E in Hout; discriminate|].
  rewrite E in Hsame. symmetry in Hsame.
  rewrite (proj1 (scan_app t _) 0 b v rest Hsame); [reflexivity|].
  intros lit ->. by destruct (Hv lit).
Qed.

(** X18: the handler decodes the first JSON value of the body and
    does not look at what follows it.  A body that decodes without error
    still decodes, to the same content length, with any bytes appended,
    and the request is served in the same way. *)
Theorem trailing_bytes_ignored env st b t cl :
  decodes_to b cl ->
  decodes_to (b +:+ t) cl /\ serve env st (b +:+ t) = serve env st b.
Proof.
  intros Hd.
  assert (He : Decode (b +:+ t) zeroBody = Decode b zeroBody).
  { unfold decodes_to, Decode, json.Decode in *.
    destruct (json.readValue b) as [e|v] eqn:E; [discriminate|].
    rewrite (readValue_app b t v E); [reflexivity|].
    intros lit ->. discriminate. }
  split; [unfold decodes_to; by rewrite He | by apply serve_ext].
Qed.

Lemma trailing_bytes_ignored_witness :
  decodes_to (body_of 5) 5 /\
  decodes_to (body_of 5 +:+ "}] and more") 5 /\
  serve signing_env st0 (body_of 5 +:+ "}] and more") = serve signing_env st0 (body_of 5).
Proof.
  assert (H : decodes_to (body_of 5) 5) by (vm_compute; reflexivity).
  exact (conj H (trailing_bytes_ignored signing_env st0 _ "}] and more" 5 H)).
Defined.
